(** * edx-platform: modulestore test configuration and the edxnotes decorator

    A shallow embedding of

    - [common/lib/xmodule/xmodule/modulestore/tests/django_utils.py]
      (the configuration-assembly functions, the [ModuleStoreTestCase]
      lifecycle hooks, [setUp], [create_non_staff_user] and
      [create_sample_course]), and
    - [lms/djangoapps/edxnotes/decorators.py] (the [edxnotes] class
      decorator),

    together with the properties the specification states about them. *)

From stdpp Require Import gmap strings list fin_maps.
From Stdlib Require Import ZArith NArith Ascii String.

#[local] Set Warnings "-register-all,-clear-no-such-hyp".
#[local] Open Scope string_scope.
#[local] Open Scope list_scope.

(* ===================================================================== *)
(** * Python values *)
(* ===================================================================== *)

Module Py.

(** The fragment of Python data the two files build and pass around:
    [None], booleans, integers, strings, lists and dictionaries keyed by
    strings.  A dictionary is a finite map, so that equality of
    dictionaries is equality of their entries, as [==] is in Python. *)
Inductive pyval : Type :=
| PyNone
| PyBool (b : bool)
| PyInt (z : Z)
| PyStr (s : string)
| PyList (l : list pyval)
| PyDict (d : gmap string pyval).

(** [v[k]] for a string key: [None] stands for the [KeyError] (or
    [TypeError]) Python raises. *)
Definition getitem (v : pyval) (k : string) : option pyval :=
  match v with
  | PyDict d => d !! k
  | _ => None
  end.

(** [v[k1][k2]...] *)
Fixpoint getpath (v : pyval) (ks : list string) : option pyval :=
  match ks with
  | [] => Some v
  | k :: ks' => match getitem v k with
                | Some v' => getpath v' ks'
                | None => None
                end
  end.

(** The keys of a dictionary, [v.keys()], as a set. *)
Definition keys (v : pyval) : gset string :=
  match v with
  | PyDict d => dom d
  | _ => ∅
  end.

(** Python truth value testing, as [if v:] and [not v] use it. *)
Definition truthy (v : pyval) : bool :=
  match v with
  | PyNone => false
  | PyBool b => b
  | PyInt z => negb (Z.eqb z 0)
  | PyStr s => negb (String.eqb s "")
  | PyList l => match l with [] => false | _ => true end
  | PyDict d => negb (bool_decide (d = ∅))
  end.

(** [getattr(obj, name, default)] on an object given by its attribute
    dictionary, and the plain [obj.name], which raises [AttributeError]
    ([None] here) when the attribute is missing. *)
Definition getattr_default {A} (obj : gmap string A) (name : string) (default : A) : A :=
  match obj !! name with
  | Some v => v
  | None => default
  end.

Definition getattr {A} (obj : gmap string A) (name : string) : option A :=
  obj !! name.

End Py.

Import Py.

(* ===================================================================== *)
(** * Configuration assembly: [django_utils.py], lines 26-142 *)
(* ===================================================================== *)

Module Config.

(** ** [uuid4().hex[:5]] *)

(** The source of randomness behind [uuid.uuid4]: the [n]-th element is
    the 128 random bits of the [n]-th call still to come. *)
Definition entropy : Type := nat -> N.

(** [UUID(bytes=..., version=4)]: the variant bits (63-62) are set to
    [10] and the version nibble (bits 79-76) to [4]. *)
Definition uuid4_int (r : N) : N :=
  let i := N.land r (N.ones 128) in
  let i := N.lor (N.ldiff i (N.shiftl 0xc000 48)) (N.shiftl 0x8000 48) in
  N.lor (N.ldiff i (N.shiftl 0xf000 64)) (N.shiftl 4 76).

Definition uuid4 (e : entropy) : N * entropy :=
  (uuid4_int (e 0%nat), fun n => e (S n)).

Definition hex_digit (d : N) : ascii :=
  match d with
  | 0 => "0" | 1 => "1" | 2 => "2" | 3 => "3" | 4 => "4" | 5 => "5"
  | 6 => "6" | 7 => "7" | 8 => "8" | 9 => "9" | 10 => "a" | 11 => "b"
  | 12 => "c" | 13 => "d" | 14 => "e" | _ => "f"
  end%N%char.

(** ['%0<width>x' % v], least significant digit produced first. *)
Fixpoint hex_pad (width : nat) (v : N) (acc : string) : string :=
  match width with
  | O => acc
  | S w => hex_pad w (N.div v 16) (String (hex_digit (N.modulo v 16)) acc)
  end.

(** [UUID.hex] *)
Definition hex (u : N) : string := hex_pad 32 u "".

(** ['modulestore{0}'.format(uuid4().hex[:5])], given the uuid. *)
Definition collection_name (u : N) : string :=
  "modulestore" +:+ substring 0 5 (hex u).

Section WithMongo.

(** [MONGO_HOST] and [MONGO_PORT_NUM] are imported from
    [xmodule.modulestore.tests.mongo_connection]. *)
Variable MONGO_HOST : string.
Variable MONGO_PORT_NUM : Z.

(** [draft_mongo_store_config(data_dir)] *)
Definition draft_mongo_store_config (data_dir : string) (e : entropy)
  : pyval * entropy :=
  let modulestore_options := PyDict {[
    "default_class" := PyStr "xmodule.raw_module.RawDescriptor";
    "fs_root" := PyStr data_dir;
    "render_template" := PyStr "edxmako.shortcuts.render_to_string" ]} in
  let '(u, e') := uuid4 e in
  let store := PyDict {[
    "default" := PyDict {[
      "NAME" := PyStr "draft";
      "ENGINE" := PyStr "xmodule.modulestore.mongo.draft.DraftModuleStore";
      "DOC_STORE_CONFIG" := PyDict {[
        "host" := PyStr MONGO_HOST;
        "port" := PyInt MONGO_PORT_NUM;
        "db" := PyStr "test_xmodule";
        "collection" := PyStr (collection_name u) ]};
      "OPTIONS" := modulestore_options ]} ]} in
  (store, e').

(** [split_mongo_store_config(data_dir)] *)
Definition split_mongo_store_config (data_dir : string) (e : entropy)
  : pyval * entropy :=
  let modulestore_options := PyDict {[
    "default_class" := PyStr "xmodule.raw_module.RawDescriptor";
    "fs_root" := PyStr data_dir;
    "render_template" := PyStr "edxmako.shortcuts.render_to_string" ]} in
  let '(u, e') := uuid4 e in
  let store := PyDict {[
    "default" := PyDict {[
      "NAME" := PyStr "draft";
      "ENGINE" := PyStr "xmodule.modulestore.split_mongo.split_draft.DraftVersioningModuleStore";
      "DOC_STORE_CONFIG" := PyDict {[
        "host" := PyStr MONGO_HOST;
        "port" := PyInt MONGO_PORT_NUM;
        "db" := PyStr "test_xmodule";
        "collection" := PyStr (collection_name u) ]};
      "OPTIONS" := modulestore_options ]} ]} in
  (store, e').

(** [xml_store_config(data_dir, course_dirs=None)] *)
Definition xml_store_config (data_dir : string) (course_dirs : pyval) : pyval :=
  PyDict {[
    "default" := PyDict {[
      "NAME" := PyStr "xml";
      "ENGINE" := PyStr "xmodule.modulestore.xml.XMLModuleStore";
      "OPTIONS" := PyDict {[
        "data_dir" := PyStr data_dir;
        "default_class" := PyStr "xmodule.hidden_module.HiddenDescriptor";
        "course_dirs" := course_dirs ]} ]} ]}.

(** [mixed_store_config(data_dir, mappings, include_xml=True)].  The
    subscripts [...['default']] can raise in Python, so the result is
    optional; the entropy is threaded through the two Mongo
    configurations in the order the list display evaluates them. *)
Definition mixed_store_config (data_dir : string) (mappings : pyval)
    (include_xml : bool) (e : entropy) : option (pyval * entropy) :=
  let '(draft, e1) := draft_mongo_store_config data_dir e in
  draft_default ← getitem draft "default";
  let '(split, e2) := split_mongo_store_config data_dir e1 in
  split_default ← getitem split "default";
  let stores := [draft_default; split_default] in
  stores ← (if include_xml
            then xml_default ← getitem (xml_store_config data_dir PyNone) "default";
                 Some (stores ++ [xml_default])
            else Some stores);
  let store := PyDict {[
    "default" := PyDict {[
      "ENGINE" := PyStr "xmodule.modulestore.mixed.MixedModuleStore";
      "OPTIONS" := PyDict {[
        "mappings" := mappings;
        "stores" := PyList stores ]} ]} ]} in
  Some (store, e2).

End WithMongo.

(** The [NAME] and [ENGINE] entries of the profiles in the [stores] list
    of a mixed configuration. *)
Definition stores_of (cfg : pyval) : option (list pyval) :=
  match getpath cfg ["default"; "OPTIONS"; "stores"] with
  | Some (PyList l) => Some l
  | _ => None
  end.

Definition store_field (field : string) (cfg : pyval) : option (list pyval) :=
  l ← stores_of cfg; mapM (fun s => getitem s field) l.

End Config.

(* ===================================================================== *)
(** * Programs that call into their environment *)
(* ===================================================================== *)

(** The lifecycle hooks, [create_sample_course] and the decorated
    [get_html] do little themselves: they call the modulestore, the
    template renderer, the Django test case they extend.  Such a method is
    embedded as a tree of calls: each node is a call the method makes, and
    the subtree chosen depends on what the environment answers.  What the
    callee does is left to a handler, so a statement proved for every
    handler holds whatever the collaborators do. *)
Module Effect.

(** The exceptions the embedded code can raise itself. *)
Inductive exn : Type :=
| AttributeError (name : string)
| TypeError (what : string)
| Propagated (v : pyval).

Inductive result (R : Type) : Type :=
| Ok (r : R)
| Exn (e : exn).
#[global] Arguments Ok {R} r.
#[global] Arguments Exn {R} e.

Section Prog.

Context {call : Type} {resp : call -> Type}.

Inductive prog (R : Type) : Type :=
| Ret (r : R)
| Raise (e : exn)
| Vis (c : call) (k : resp c -> prog R).
#[global] Arguments Ret {R} r.
#[global] Arguments Raise {R} e.
#[global] Arguments Vis {R} c k.

Fixpoint bind {A B} (p : prog A) (f : A -> prog B) : prog B :=
  match p with
  | Ret a => f a
  | Raise e => Raise e
  | Vis c k => Vis c (fun x => bind (k x) f)
  end.

(** One call, returning the answer. *)
Definition perform (c : call) : prog (resp c) := Vis c Ret.

(** An optional value, or the exception raised in its absence. *)
Definition require {A} (o : option A) (e : exn) : prog A :=
  match o with
  | Some a => Ret a
  | None => Raise e
  end.

Definition lift {A} (r : result A) : prog A :=
  match r with
  | Ok a => Ret a
  | Exn e => Raise e
  end.

(** [for x in xs: body(x)] *)
Fixpoint for_each {A} (xs : list A) (body : A -> prog unit) : prog unit :=
  match xs with
  | [] => Ret tt
  | x :: xs' => bind (body x) (fun _ => for_each xs' body)
  end.

(** [try: p finally: fin], which is also what a [with] block does on
    the way out. *)
Fixpoint finally {A} (p : prog A) (fin : prog unit) : prog A :=
  match p with
  | Ret a => bind fin (fun _ => Ret a)
  | Raise e => bind fin (fun _ => Raise e)
  | Vis c k => Vis c (fun x => finally (k x) fin)
  end.

(** *** Running a program against an environment *)

(** A call together with the answer it got. *)
Definition event : Type := sigT resp.
Definition trace : Type := list event.

Definition called (ev : event) : call := projT1 ev.

Section Run.

Context {W : Type}.
(** The environment: how each call transforms the world and what it
    answers. *)
Variable handle : forall c : call, W -> resp c * W.

Record outcome (R : Type) : Type := Outcome {
  returned : result R;
  final : W;
  calls : trace
}.
#[global] Arguments Outcome {R} _ _ _.
#[global] Arguments returned {R} _.
#[global] Arguments final {R} _.
#[global] Arguments calls {R} _.

(** The calls are recorded in the order they are made. *)
Fixpoint run_from {R} (p : prog R) (w : W) (sofar : trace) : outcome R :=
  match p with
  | Ret r => Outcome (Ok r) w sofar
  | Raise e => Outcome (Exn e) w sofar
  | Vis c k =>
      let '(x, w') := handle c w in
      run_from (k x) w' (sofar ++ [existT c x])
  end.

Definition run {R} (p : prog R) (w : W) : outcome R := run_from p w [].

(** The calls made, without the answers. *)
Definition made {R} (o : outcome R) : list call := called <$> calls o.

(** Carrying on with [f] from where a run stopped. *)
Definition and_then {A B} (o : outcome A) (f : A -> prog B) : outcome B :=
  match returned o with
  | Ok a => run_from (f a) (final o) (calls o)
  | Exn e => Outcome (Exn e) (final o) (calls o)
  end.

End Run.

End Prog.

#[global] Arguments prog : clear implicits.
#[global] Arguments prog {call} resp R.
#[global] Arguments event {call} resp.
#[global] Arguments trace {call} resp.
#[global] Arguments outcome {call} resp W R.
#[global] Arguments made {call resp W R} o.

Module Notations.
Notation "'let*' x := p 'in' q" := (bind p (fun x => q))
  (at level 10, x name, p at level 100, q at level 200).
Notation "'do*' p 'in' q" := (bind p (fun _ => q))
  (at level 10, p at level 100, q at level 200).
End Notations.

End Effect.

Import Effect Effect.Notations.

(* ===================================================================== *)
(** * Test lifecycle hooks: [django_utils.py], lines 279-347 *)
(* ===================================================================== *)

Module Lifecycle.

(** ** The modulestore objects the hooks inspect *)

(** [store.database]: its [name], and the [connection] it hangs on. *)
Record database : Type := Database {
  name : string;
  connection : nat
}.

(** One of [module_store.modulestores].  [hasattr(store, 'database')]
    and [hasattr(store, 'fs_root')] are the two optional fields. *)
Record store : Type := Store {
  store_database : option database;
  fs_root : option string
}.

(** What [modulestore()] returns: the code tells an [XMLModuleStore]
    ([isinstance(module_store, XMLModuleStore)]) from a store that has a
    list of [modulestores], the mixed store.  Either may or may not have
    a [close_connections] method. *)
Inductive module_store : Type :=
| XMLModuleStore (has_close_connections : bool)
| MixedModuleStore (modulestores : list store) (has_close_connections : bool).

Definition is_xml (m : module_store) : bool :=
  match m with
  | XMLModuleStore _ => true
  | MixedModuleStore _ _ => false
  end.

(** [module_store.modulestores], read only behind the [isinstance]
    guard. *)
Definition modulestores (m : module_store) : list store :=
  match m with
  | XMLModuleStore _ => []
  | MixedModuleStore stores _ => stores
  end.

(** [hasattr(module_store, 'close_connections')] *)
Definition has_close_connections (m : module_store) : bool :=
  match m with
  | XMLModuleStore c => c
  | MixedModuleStore _ c => c
  end.

(** ** The calls the hooks make *)

Inductive call : Type :=
| Modulestore                                   (* modulestore() *)
| DropDatabase (conn : nat) (name : string)     (* conn.drop_database(name) *)
| Disconnect (conn : nat)                       (* conn.disconnect() *)
| ContentstoreClear                             (* _CONTENTSTORE.clear() *)
| CloseConnections                              (* module_store.close_connections() *)
| ClearExistingModulestores                     (* clear_existing_modulestores() *)
| ClearRequestCache                             (* RequestCache().clear_request_cache() *)
| IsDir (path : string)                         (* os.path.isdir(path) *)
| Rmtree (path : string)                        (* shutil.rmtree(path, ignore_errors=True) *)
| SuperPreSetup                                 (* super(...)._pre_setup() *)
| SuperPostTeardown.                            (* super(...)._post_teardown() *)

Definition resp (c : call) : Type :=
  match c with
  | Modulestore => module_store
  | IsDir _ => bool
  | _ => unit
  end.

Definition hook : Type := prog resp unit.

#[local] Abbreviation perform := (@perform call resp).

(** [ModuleStoreTestCase.drop_mongo_collections()] *)
Definition drop_mongo_collections : hook :=
  let* module_store := perform Modulestore in
  do* (if negb (is_xml module_store) then
         for_each (modulestores module_store) (fun store =>
           match store_database store with
           | Some db =>
               let name := name db in
               do* perform (DropDatabase (connection db) name) in
               let conn := connection db in
               perform (Disconnect conn)
           | None => Ret tt
           end)
       else Ret tt) in
  do* perform ContentstoreClear in
  if has_close_connections module_store
  then perform CloseConnections
  else Ret tt.

(** [ModuleStoreTestCase._pre_setup(self)] *)
Definition _pre_setup : hook :=
  do* drop_mongo_collections in
  perform SuperPreSetup.

(** [ModuleStoreTestCase._post_teardown(self)] *)
Definition _post_teardown : hook :=
  do* drop_mongo_collections in
  do* perform ClearExistingModulestores in
  do* perform ClearRequestCache in
  let* module_store := perform Modulestore in
  do* (if negb (is_xml module_store) then
         for_each (modulestores module_store) (fun store =>
           do* match store_database store with
               | Some db =>
                   let conn := connection db in
                   perform (Disconnect conn)
               | None => Ret tt
               end in
           match fs_root store with
           | Some fs_root =>
               if String.prefix "/tmp/" fs_root then
                 let* isdir := perform (IsDir fs_root) in
                 if isdir : bool then perform (Rmtree fs_root) else Ret tt
               else Ret tt
           | None => Ret tt
           end)
       else Ret tt) in
  perform SuperPostTeardown.

(** ** A reference environment *)

(** A world to run the hooks in: the store [modulestore()] hands out,
    the [_CONTENTSTORE] cache (by the names of its entries) and the
    databases on the Mongo server.  The disk itself is not modelled:
    how [os.path.isdir] resolves a path, and what a
    [shutil.rmtree(..., ignore_errors=True)] takes away, is not this
    code's to say.  The world keeps the paths handed to [rmtree] so
    far, latest first, and [disk], which answers [os.path.isdir] given
    those paths and the path asked about. *)
Record world : Type := World {
  the_store : module_store;
  contentstore : gset string;
  databases : gset string;
  removed : list string;
  disk : list string -> string -> bool
}.

Definition step (c : call) (w : world) : resp c * world :=
  match c return resp c * world with
  | Modulestore => (the_store w, w)
  | DropDatabase _ n =>
      (tt, World (the_store w) (contentstore w) (databases w ∖ {[n]})
                 (removed w) (disk w))
  | ContentstoreClear =>
      (tt, World (the_store w) ∅ (databases w) (removed w) (disk w))
  | IsDir p => (disk w (removed w) p, w)
  | Rmtree p =>
      (tt, World (the_store w) (contentstore w) (databases w)
                 (p :: removed w) (disk w))
  | Disconnect _ | CloseConnections | ClearExistingModulestores
  | ClearRequestCache | SuperPreSetup | SuperPostTeardown => (tt, w)
  end.

End Lifecycle.

(* ===================================================================== *)
(** * [create_sample_course]: [django_utils.py], lines 349-382 *)
(* ===================================================================== *)

Module SampleCourse.

(** ** Keys and locations *)

(** A course key; [version] is the version or branch information that
    [version_agnostic()] strips. *)
Record CourseKey : Type := MkCourseKey {
  org : string;
  course : string;
  run : string;
  version : option string
}.

(** A usage key: the location of a block. *)
Record Location : Type := MkLocation {
  course_key : CourseKey;
  block_type : string;
  loc_id : string
}.

Definition key_version_agnostic (k : CourseKey) : CourseKey :=
  MkCourseKey (org k) (course k) (run k) None.

Definition version_agnostic (l : Location) : Location :=
  MkLocation (key_version_agnostic (course_key l)) (block_type l) (loc_id l).

(** A block (or course) handed back by the modulestore: the code only
    reads its [location]. *)
Record xblock : Type := XBlock { location : Location }.

(** ** Block descriptions *)

(** [BlockInfo = namedtuple('BlockInfo', 'block_id, category, fields,
    sub_tree')] from [xmodule.modulestore.tests.sample_courses]. *)
Inductive BlockInfo : Type :=
  MkBlockInfo (block_id : string) (category : string) (fields : pyval)
              (sub_tree : list BlockInfo).

Definition block_id (b : BlockInfo) : string :=
  let 'MkBlockInfo i _ _ _ := b in i.
Definition category (b : BlockInfo) : string :=
  let 'MkBlockInfo _ c _ _ := b in c.
Definition fields (b : BlockInfo) : pyval :=
  let 'MkBlockInfo _ _ f _ := b in f.
Definition sub_tree (b : BlockInfo) : list BlockInfo :=
  let 'MkBlockInfo _ _ _ t := b in t.

(** ** The test case object *)

(** What an attribute of the test case ([self]) can hold here: the
    modulestore put there by [setUp], the test user, or a location. *)
Inductive attr : Type :=
| AStore (store : nat)
| AUser (id : Z)
| ALocation (loc : Location).

(** [self.__dict__] *)
Abbreviation testcase := (gmap string attr).

(** ** Calls into the modulestore *)

Inductive call : Type :=
| BranchSettingEnter (store : nat) (branch : string) (course_id : option CourseKey)
| BranchSettingExit (store : nat)
| CreateCourse (store : nat) (org course run : string) (user_id : Z) (fields : pyval)
| CreateChild (store : nat) (user_id : Z) (parent : Location)
              (category : string) (block_id : string) (fields : pyval)
| Publish (store : nat) (loc : Location) (user_id : Z).

Definition resp (c : call) : Type :=
  match c with
  | CreateCourse _ _ _ _ _ _ => xblock
  | CreateChild _ _ _ _ _ _ => xblock
  | _ => unit
  end.

#[local] Abbreviation perform := (@perform call resp).
#[local] Abbreviation prog := (Effect.prog resp).

(** [self.store.<method>]: the attribute must be there and be a
    modulestore. *)
Definition self_store (self : testcase) (method : string) : prog nat :=
  let* a := require (self !! "store") (AttributeError "store") in
  match a with
  | AStore s => Ret s
  | _ => Raise (AttributeError method)
  end.

(** [self.user.id] *)
Definition self_user_id (self : testcase) : prog Z :=
  let* a := require (self !! "user") (AttributeError "user") in
  match a with
  | AUser id => Ret id
  | _ => Raise (AttributeError "id")
  end.

(** [self.course_loc] *)
Definition self_course_loc (self : testcase) : prog Location :=
  let* a := require (self !! "course_loc") (AttributeError "course_loc") in
  match a with
  | ALocation l => Ret l
  | _ => Raise (AttributeError "version_agnostic")
  end.

(** [ModuleStoreEnum.Branch.draft_preferred] *)
Definition draft_preferred : string := "draft-preferred".

(** The inner function [create_sub_tree(parent_loc, block_info)].  It
    closes over [self], which it reads ([self.store], [self.user]) and
    writes ([setattr(self, block_info.block_id, ...)]): the test case is
    threaded through. *)
Fixpoint create_sub_tree (block_info : BlockInfo) (parent_loc : Location)
    (self : testcase) : prog testcase :=
  let* store := self_store self "create_child" in
  let* user_id := self_user_id self in
  let* block := perform (CreateChild store user_id (version_agnostic parent_loc)
                           (category block_info) (block_id block_info)
                           (fields block_info)) in
  let* self :=
    (fix each (trees : list BlockInfo) (self : testcase) : prog testcase :=
       match trees with
       | [] => Ret self
       | tree :: trees' =>
           let* self := create_sub_tree tree (location block) self in
           each trees' self
       end) (sub_tree block_info) self in
  Ret (<[block_id block_info := ALocation (version_agnostic (location block))]> self).

Section WithDefaults.

(** [default_block_info_tree], imported from
    [xmodule.modulestore.tests.sample_courses]. *)
Variable default_block_info_tree : list BlockInfo.

(** The [for tree in block_info_tree:] loop of [create_sample_course];
    [self.course_loc] is read again at every turn. *)
Fixpoint create_trees (trees : list BlockInfo) (self : testcase) : prog testcase :=
  match trees with
  | [] => Ret self
  | tree :: trees' =>
      let* course_loc := self_course_loc self in
      let* self := create_sub_tree tree course_loc self in
      create_trees trees' self
  end.

(** [create_sample_course(self, org, course, run, block_info_tree=None,
    course_fields=None)]: the test case afterwards and the course key
    returned. *)
Definition create_sample_course (self : testcase) (org course run : string)
    (block_info_tree : option (list BlockInfo)) (course_fields : pyval)
  : prog (testcase * CourseKey) :=
  let block_info_tree :=
    match block_info_tree with
    | None => default_block_info_tree
    | Some t => t
    end in
  let* store := self_store self "branch_setting" in
  do* perform (BranchSettingEnter store draft_preferred None) in
  let* self :=
    finally
      (let* store := self_store self "create_course" in
       let* user_id := self_user_id self in
       let* course := perform (CreateCourse store org course run user_id course_fields) in
       let self := <["course_loc" := ALocation (location course)]> self in
       let* self := create_trees block_info_tree self in
       let* store := self_store self "publish" in
       let* course_loc := self_course_loc self in
       let* user_id := self_user_id self in
       do* perform (Publish store (version_agnostic course_loc) user_id) in
       Ret self)
      (perform (BranchSettingExit store)) in
  let* course_loc := self_course_loc self in
  Ret (self, key_version_agnostic (course_key course_loc)).

End WithDefaults.

(** ** Reading a tree *)




End SampleCourse.

(* ===================================================================== *)
(** * The [edxnotes] decorator: [edxnotes/decorators.py] *)
(* ===================================================================== *)

Module EdxNotes.

(** ** Components and courses *)

(** The parts of a component ([self]) that the wrapped [get_html]
    reads.  [system] is the attribute dictionary of [self.system]: the
    code looks [is_author_mode] up in it with a default. *)
Record component : Type := Component {
  system : gmap string pyval;
  descriptor_runtime_modulestore : nat;   (* self.descriptor.runtime.modulestore *)
  runtime_course_id : pyval;              (* self.runtime.course_id *)
  runtime_anonymous_student_id : pyval;   (* self.runtime.anonymous_student_id *)
  scope_ids_usage_id : pyval              (* self.scope_ids.usage_id *)
}.

(** The course [get_course] returns: [course.id] and
    [course.edxnotes_visibility]. *)
Record course : Type := Course {
  id : pyval;
  edxnotes_visibility : pyval
}.

(** ** Class attributes and callables *)

(** What a class attribute can hold: plain data, a function defined
    elsewhere (known by a name only), or the closure [get_html] that
    [edxnotes] builds, which captures [original_get_html]. *)
Inductive value : Type :=
| Data (v : pyval)
| Function (f : nat)
| GetHtmlWrapper (original_get_html : value).

(** ** Calls to collaborators *)

Inductive call : Type :=
| GetCourse (modulestore : nat) (course_id : pyval)     (* modulestore.get_course(course_id) *)
| IsFeatureEnabled (c : course)                         (* is_feature_enabled(course) *)
| Invoke (f : nat) (self : component) (args : list pyval) (kwargs : gmap string pyval)
| GenerateUid                                           (* generate_uid() *)
| Reverse (viewname : string) (kwargs : gmap string pyval)
| JsonDumps (v : pyval)                                 (* json.dumps(v) *)
| UnicodeEncodeUtf8 (v : pyval)                         (* unicode(v).encode('utf-8') *)
| GetRealUser (anonymous_student_id : pyval)            (* self.runtime.get_real_user(...) *)
| GetToken (user : pyval)                               (* get_token(user) *)
| GetEndpoint                                           (* get_endpoint() *)
| SettingsDEBUG                                         (* settings.DEBUG *)
| RenderToString (template : string) (context : gmap string pyval).

Definition resp (c : call) : Type :=
  match c with
  | GetCourse _ _ => course
  | IsFeatureEnabled _ => bool
  | Invoke _ _ _ _ => result pyval
  | _ => pyval
  end.

#[local] Abbreviation perform := (@perform call resp).
#[local] Abbreviation prog := (Effect.prog resp).

(** Calling a class attribute as [v(self, *args, **kwargs)].  For the
    closure built by [edxnotes] this is the body of the inner [get_html],
    lines 22-47. *)
Fixpoint apply (v : value) (self : component) (args : list pyval)
    (kwargs : gmap string pyval) : prog pyval :=
  match v with
  | Data _ => Raise (TypeError "object is not callable")
  | Function f =>
      let* r := perform (Invoke f self args kwargs) in
      lift r
  | GetHtmlWrapper original_get_html =>
      let is_studio := getattr_default (system self) "is_author_mode" (PyBool false) in
      let* course := perform (GetCourse (descriptor_runtime_modulestore self)
                                        (runtime_course_id self)) in
      let* skip :=
        (if truthy is_studio then Ret true
         else let* enabled := perform (IsFeatureEnabled course) in
              Ret (negb enabled)) in
      if skip : bool then
        apply original_get_html self args kwargs
      else
        let* content := apply original_get_html self args kwargs in
        let* uid := perform GenerateUid in
        let* visibility_url :=
          perform (Reverse "edxnotes_visibility" {[ "course_id" := id course ]}) in
        let* visibility := perform (JsonDumps (edxnotes_visibility course)) in
        let* usage_id := perform (UnicodeEncodeUtf8 (scope_ids_usage_id self)) in
        let* course_id := perform (UnicodeEncodeUtf8 (runtime_course_id self)) in
        let* user := perform (GetRealUser (runtime_anonymous_student_id self)) in
        let* token := perform (GetToken user) in
        let* endpoint := perform GetEndpoint in
        let* debug := perform SettingsDEBUG in
        perform (RenderToString "edxnotes_wrapper.html" {[
          "content" := content;
          "uid" := uid;
          "edxnotes_visibility_url" := visibility_url;
          "edxnotes_visibility" := visibility;
          "params" := PyDict {[
            "usageId" := usage_id;
            "courseId" := course_id;
            "token" := token;
            "endpoint" := endpoint;
            "debug" := debug ]} ]})
  end.

(** ** Classes *)

(** A class object: its own [__dict__] and the classes after it in its
    method resolution order, by address. *)
Record class : Type := Class {
  dict : gmap string value;
  mro_tail : list nat
}.

(** Class objects live in a heap: the decorator mutates the class it is
    given. *)
Abbreviation heap := (gmap nat class).

(** [cls.name]: the class's own dictionary first, then those of its
    bases in resolution order. *)
Definition class_getattr (h : heap) (cls : nat) (name : string) : option value :=
  c ← h !! cls;
  match dict c !! name with
  | Some v => Some v
  | None =>
      list_find (fun o : option value => is_Some o)
                ((fun b => b' ← h !! b; dict b' !! name) <$> mro_tail c)
        ≫= snd
  end.

(** [cls.name = v] *)
Definition class_setattr (h : heap) (cls : nat) (name : string) (v : value) : heap :=
  match h !! cls with
  | Some c => <[cls := Class (<[name := v]> (dict c)) (mro_tail c)]> h
  | None => h
  end.

(** [edxnotes(cls)]: the heap afterwards and the object returned. *)
Definition edxnotes (h : heap) (cls : nat) : result (heap * nat) :=
  match class_getattr h cls "get_html" with
  | None => Exn (AttributeError "get_html")
  | Some original_get_html =>
      let get_html := GetHtmlWrapper original_get_html in
      let h := class_setattr h cls "get_html" get_html in
      Ok (h, cls)
  end.

(** The calls of the original [get_html] in a trace of a wrapper built
    over the function [f], with their arguments. *)
Definition original_calls (f : nat) (t : trace resp)
  : list (component * list pyval * gmap string pyval) :=
  omap (fun ev : event resp =>
          match projT1 ev with
          | Invoke g self args kwargs =>
              if decide (g = f) then Some (self, args, kwargs) else None
          | _ => None
          end) t.

End EdxNotes.

(* ===================================================================== *)
(** * [setUp] and [create_non_staff_user]: [django_utils.py], lines 221-265 *)
(* ===================================================================== *)

Module TestUsers.

Import SampleCourse.

(** A user as [UserFactory.create] builds it; the code sets the two
    flags and saves. *)
Record user : Type := User {
  user_id : Z;
  username : string;
  email : string;
  password : string;
  is_active : bool;
  is_staff : bool
}.

Inductive call : Type :=
| SuperSetUp                                               (* super(...).setUp() *)
| Modulestore                                              (* modulestore() *)
| UserFactoryCreate (username email password : string)     (* UserFactory.create(...) *)
| UserSave (u : user).                                     (* user.save() *)

Definition resp (c : call) : Type :=
  match c with
  | Modulestore => nat
  | UserFactoryCreate _ _ _ => user
  | _ => unit
  end.

#[local] Abbreviation perform := (@Effect.perform call resp).

(** [ModuleStoreTestCase.setUp(self, **kwargs)]: the test case
    afterwards and the password returned.  [self.user] is recorded by the
    user's id, which is all [create_sample_course] reads of it. *)
Definition setUp (self : testcase) (kwargs : gmap string pyval)
  : prog resp (testcase * string) :=
  do* perform SuperSetUp in
  let* store := perform Modulestore in
  let self := <["store" := AStore store]> self in
  let uname := "testuser" in
  let email := "test+courses@edx.org" in
  let password := "foo" in
  let* self :=
    (if truthy (default (PyBool true) (kwargs !! "create_user")) then
       let* user := perform (UserFactoryCreate uname email password) in
       let user := User (user_id user) (username user) (TestUsers.email user)
                        (TestUsers.password user) true (is_staff user) in
       let user := User (user_id user) (username user) (TestUsers.email user)
                        (TestUsers.password user) (is_active user) true in
       do* perform (UserSave user) in
       Ret (<["user" := AUser (user_id user)]> self)
     else Ret self) in
  Ret (self, password).

(** [ModuleStoreTestCase.create_non_staff_user(self)] *)
Definition create_non_staff_user : prog resp (user * string) :=
  let uname := "teststudent" in
  let password := "foo" in
  let* nonstaff_user := perform (UserFactoryCreate uname "test+student@edx.org" password) in
  let nonstaff_user := User (user_id nonstaff_user) (username nonstaff_user)
                            (TestUsers.email nonstaff_user)
                            (TestUsers.password nonstaff_user) true
                            (is_staff nonstaff_user) in
  let nonstaff_user := User (user_id nonstaff_user) (username nonstaff_user)
                            (TestUsers.email nonstaff_user)
                            (TestUsers.password nonstaff_user)
                            (is_active nonstaff_user) false in
  do* perform (UserSave nonstaff_user) in
  Ret (nonstaff_user, password).

End TestUsers.

(* ===================================================================== *)
(** * Properties *)
(* ===================================================================== *)

(** ** Running programs *)

Module EffectFacts.

Section Run.

Context {call : Type} {resp : call -> Type} {W : Type}.
Variable handle : forall c : call, W -> resp c * W.

#[local] Abbreviation prog := (Effect.prog resp).

Lemma run_from_calls {R} (p : prog R) w sofar :
  run_from handle p w sofar =
  Outcome (returned (run handle p w)) (final (run handle p w))
          (sofar ++ calls (run handle p w)).
Proof.
  unfold run. revert w sofar.
  induction p as [r|e|c k IH]; intros w sofar; simpl.
  - by rewrite app_nil_r.
  - by rewrite app_nil_r.
  - destruct (handle c w) as [x w'].
    rewrite (IH x w' (sofar ++ [existT c x])), (IH x w' [existT c x]).
    simpl. by rewrite <- app_assoc.
Qed.

Lemma run_from_bind {A B} (p : prog A) (f : A -> prog B) w sofar :
  run_from handle (bind p f) w sofar = and_then handle (run_from handle p w sofar) f.
Proof.
  revert w sofar. induction p as [r|e|c k IH]; intros w sofar; simpl; try done.
  destruct (handle c w) as [x w']. apply IH.
Qed.

Lemma run_bind {A B} (p : prog A) (f : A -> prog B) w :
  run handle (bind p f) w = and_then handle (run handle p w) f.
Proof. apply run_from_bind. Qed.

Lemma run_perform (c : call) w :
  run handle (perform c) w =
  Outcome (Ok (handle c w).1) (handle c w).2 [existT c (handle c w).1].
Proof. unfold run, perform. simpl. by destruct (handle c w). Qed.

Lemma run_vis {R} (c : call) (k : resp c -> prog R) w :
  run handle (Vis c k) w =
  run_from handle (k (handle c w).1) (handle c w).2 [existT c (handle c w).1].
Proof. unfold run. simpl. by destruct (handle c w). Qed.

Lemma made_run_from {R} (p : prog R) w sofar :
  made (run_from handle p w sofar) = (called <$> sofar) ++ made (run handle p w).
Proof. unfold made. rewrite run_from_calls. simpl. by rewrite fmap_app. Qed.

Lemma returned_run_from {R} (p : prog R) w sofar :
  returned (run_from handle p w sofar) = returned (run handle p w).
Proof. by rewrite run_from_calls. Qed.

Lemma final_run_from {R} (p : prog R) w sofar :
  final (run_from handle p w sofar) = final (run handle p w).
Proof. by rewrite run_from_calls. Qed.

Lemma run_bind_ok {A B} (p : prog A) (f : A -> prog B) w a :
  returned (run handle p w) = Ok a ->
  run handle (bind p f) w
  = run_from handle (f a) (final (run handle p w)) (calls (run handle p w)).
Proof. intros H. rewrite run_bind. unfold and_then. by rewrite H. Qed.

Lemma run_bind_exn {A B} (p : prog A) (f : A -> prog B) w e :
  returned (run handle p w) = Exn e ->
  run handle (bind p f) w
  = Outcome (Exn e) (final (run handle p w)) (calls (run handle p w)).
Proof. intros H. rewrite run_bind. unfold and_then. by rewrite H. Qed.

Lemma made_bind_ok {A B} (p : prog A) (f : A -> prog B) w a :
  returned (run handle p w) = Ok a ->
  made (run handle (bind p f) w)
  = made (run handle p w) ++ made (run handle (f a) (final (run handle p w))).
Proof. intros H. by rewrite (run_bind_ok _ _ _ _ H), made_run_from. Qed.

Lemma returned_bind_ok {A B} (p : prog A) (f : A -> prog B) w a :
  returned (run handle p w) = Ok a ->
  returned (run handle (bind p f) w)
  = returned (run handle (f a) (final (run handle p w))).
Proof. intros H. by rewrite (run_bind_ok _ _ _ _ H), returned_run_from. Qed.

Lemma final_bind_ok {A B} (p : prog A) (f : A -> prog B) w a :
  returned (run handle p w) = Ok a ->
  final (run handle (bind p f) w)
  = final (run handle (f a) (final (run handle p w))).
Proof. intros H. by rewrite (run_bind_ok _ _ _ _ H), final_run_from. Qed.

Lemma made_perform (c : call) w : made (run handle (perform c) w) = [c].
Proof. by rewrite run_perform. Qed.

Lemma returned_perform (c : call) w :
  returned (run handle (perform c) w) = Ok (handle c w).1.
Proof. by rewrite run_perform. Qed.

Lemma final_perform (c : call) w :
  final (run handle (perform c) w) = (handle c w).2.
Proof. by rewrite run_perform. Qed.

(** A loop whose body never raises does not raise, and every call it
    makes is one its body can make. *)
Lemma for_each_ok {A} (P : call -> Prop) (xs : list A) (body : A -> prog unit) :
  (forall x w, returned (run handle (body x) w) = Ok tt /\
               Forall P (made (run handle (body x) w))) ->
  forall w, returned (run handle (for_each xs body) w) = Ok tt /\
            Forall P (made (run handle (for_each xs body) w)).
Proof.
  intros Hbody. induction xs as [|x xs IH]; intros w; simpl.
  - split; [done|constructor].
  - destruct (Hbody x w) as [Hr Hm].
    rewrite (returned_bind_ok _ _ _ _ Hr), (made_bind_ok _ _ _ _ Hr).
    destruct (IH (final (run handle (body x) w))) as [Hr' Hm'].
    split; [done|]. by apply Forall_app.
Qed.

(** When the calls of the body do not depend on the world, the calls
    of the loop are those of its turns, one after the other. *)
Lemma for_each_made {A} (g : A -> list call) (xs : list A) (body : A -> prog unit) :
  (forall x w, returned (run handle (body x) w) = Ok tt /\
               made (run handle (body x) w) = g x) ->
  forall w, returned (run handle (for_each xs body) w) = Ok tt /\
            made (run handle (for_each xs body) w) = flat_map g xs.
Proof.
  intros Hbody. induction xs as [|x xs IH]; intros w; simpl.
  - done.
  - destruct (Hbody x w) as [Hr Hm].
    rewrite (returned_bind_ok _ _ _ _ Hr), (made_bind_ok _ _ _ _ Hr).
    destruct (IH (final (run handle (body x) w))) as [Hr' Hm'].
    split; [done|]. by rewrite Hm, Hm'.
Qed.

End Run.

End EffectFacts.

Import EffectFacts.

(** ** Configuration assembly *)

Module ConfigFacts.

Import Config.

(** An entropy source whose successive uuids start with the hex digits
    [00000], [00001], [00002], ... *)
Definition counting_entropy : entropy := fun n => N.shiftl (N.of_nat n) 108.

(** The first five hex digits of the uuid the next [uuid4()] returns. *)
Definition next_hex5 (e : entropy) : string := substring 0 5 (hex (uuid4 e).1).

Lemma collection_name_inj u v :
  collection_name u = collection_name v <->
  substring 0 5 (hex u) = substring 0 5 (hex v).
Proof.
  unfold collection_name. split; [|by intros ->].
  generalize (substring 0 5 (hex u)), (substring 0 5 (hex v)).
  intros a b H. cbn in H. by injection H.
Qed.

Lemma Some_PyStr_inj (a b : string) : Some (PyStr a) = Some (PyStr b) -> a = b.
Proof. by intros [=]. Qed.

Lemma Some_inj' {A} (a b : A) : Some a = Some b -> a = b.
Proof. by intros [=]. Qed.

Lemma pair_tail_inj {A} (a b c d : A) (t : list A) :
  [a; b] ++ t = [c; d] ++ t -> a = c /\ b = d.
Proof. by intros [=]. Qed.

(** *** Reading the literal dictionaries *)

(** The ['default'] profile of a Mongo-backed configuration, given its
    name, engine, collection and the file-system root. *)
Definition mongo_profile (host : string) (port : Z)
    (name engine collection data_dir : string) : pyval :=
  PyDict {[
    "NAME" := PyStr name;
    "ENGINE" := PyStr engine;
    "DOC_STORE_CONFIG" := PyDict {[
      "host" := PyStr host;
      "port" := PyInt port;
      "db" := PyStr "test_xmodule";
      "collection" := PyStr collection ]};
    "OPTIONS" := PyDict {[
      "default_class" := PyStr "xmodule.raw_module.RawDescriptor";
      "fs_root" := PyStr data_dir;
      "render_template" := PyStr "edxmako.shortcuts.render_to_string" ]} ]}.

Lemma mongo_profile_fields host port name engine collection data_dir :
  let p := mongo_profile host port name engine collection data_dir in
  getitem p "NAME" = Some (PyStr name) /\
  getitem p "ENGINE" = Some (PyStr engine) /\
  getpath p ["DOC_STORE_CONFIG"; "collection"] = Some (PyStr collection).
Proof. vm_compute. done. Qed.

Lemma getitem_default (x : pyval) :
  getitem (PyDict {[ "default" := x ]}) "default" = Some x.
Proof. vm_compute. done. Qed.

Lemma keys_default (x : pyval) : keys (PyDict {[ "default" := x ]}) = {[ "default" ]}.
Proof. unfold keys. apply dom_singleton_L. Qed.

(** The ['default'] profile of the XML configuration. *)
Definition xml_profile (data_dir : string) (course_dirs : pyval) : pyval :=
  PyDict {[
    "NAME" := PyStr "xml";
    "ENGINE" := PyStr "xmodule.modulestore.xml.XMLModuleStore";
    "OPTIONS" := PyDict {[
      "data_dir" := PyStr data_dir;
      "default_class" := PyStr "xmodule.hidden_module.HiddenDescriptor";
      "course_dirs" := course_dirs ]} ]}.

Lemma xml_profile_fields data_dir course_dirs :
  let p := xml_profile data_dir course_dirs in
  getitem p "NAME" = Some (PyStr "xml") /\
  getitem p "ENGINE" = Some (PyStr "xmodule.modulestore.xml.XMLModuleStore").
Proof. vm_compute. done. Qed.

Lemma xml_unfold data_dir course_dirs :
  xml_store_config data_dir course_dirs
  = PyDict {[ "default" := xml_profile data_dir course_dirs ]}.
Proof. reflexivity. Qed.

(** The ['default'] profile of the mixed configuration. *)
Definition mixed_profile (mappings : pyval) (stores : list pyval) : pyval :=
  PyDict {[
    "ENGINE" := PyStr "xmodule.modulestore.mixed.MixedModuleStore";
    "OPTIONS" := PyDict {[
      "mappings" := mappings;
      "stores" := PyList stores ]} ]}.

Lemma mixed_profile_fields mappings stores :
  let p := mixed_profile mappings stores in
  getitem p "ENGINE" = Some (PyStr "xmodule.modulestore.mixed.MixedModuleStore") /\
  getitem p "OPTIONS"
    = Some (PyDict {[ "mappings" := mappings; "stores" := PyList stores ]}) /\
  getpath p ["OPTIONS"; "mappings"] = Some mappings /\
  getpath p ["OPTIONS"; "stores"] = Some (PyList stores).
Proof. vm_compute. done. Qed.

Lemma stores_of_mixed mappings stores :
  stores_of (PyDict {[ "default" := mixed_profile mappings stores ]}) = Some stores.
Proof. vm_compute. done. Qed.

Section WithMongo.

Variable MONGO_HOST : string.
Variable MONGO_PORT_NUM : Z.

#[local] Abbreviation draft := (draft_mongo_store_config MONGO_HOST MONGO_PORT_NUM).
#[local] Abbreviation split := (split_mongo_store_config MONGO_HOST MONGO_PORT_NUM).
#[local] Abbreviation mixed := (mixed_store_config MONGO_HOST MONGO_PORT_NUM).

Lemma draft_unfold data_dir e :
  draft data_dir e =
  (PyDict {[ "default" :=
     mongo_profile MONGO_HOST MONGO_PORT_NUM "draft"
       "xmodule.modulestore.mongo.draft.DraftModuleStore"
       (collection_name (uuid4 e).1) data_dir ]},
   (uuid4 e).2).
Proof. reflexivity. Qed.

Lemma split_unfold data_dir e :
  split data_dir e =
  (PyDict {[ "default" :=
     mongo_profile MONGO_HOST MONGO_PORT_NUM "draft"
       "xmodule.modulestore.split_mongo.split_draft.DraftVersioningModuleStore"
       (collection_name (uuid4 e).1) data_dir ]},
   (uuid4 e).2).
Proof. reflexivity. Qed.

(** The result of [mixed_store_config], spelt out. *)
Lemma mixed_unfold data_dir mappings include_xml e :
  mixed data_dir mappings include_xml e =
  Some (PyDict {[ "default" :=
          mixed_profile mappings
            ([ mongo_profile MONGO_HOST MONGO_PORT_NUM "draft"
                 "xmodule.modulestore.mongo.draft.DraftModuleStore"
                 (collection_name (uuid4 e).1) data_dir;
               mongo_profile MONGO_HOST MONGO_PORT_NUM "draft"
                 "xmodule.modulestore.split_mongo.split_draft.DraftVersioningModuleStore"
                 (collection_name (uuid4 (uuid4 e).2).1) data_dir ]
             ++ if include_xml then [xml_profile data_dir PyNone] else []) ]},
        (uuid4 (uuid4 e).2).2).
Proof.
  unfold mixed_store_config.
  rewrite draft_unfold, getitem_default. cbn [mbind option_bind].
  rewrite split_unfold, getitem_default. cbn [mbind option_bind].
  destruct include_xml.
  - rewrite xml_unfold, getitem_default. reflexivity.
  - reflexivity.
Qed.

Lemma draft_eq_iff data_dir e1 e2 :
  (draft data_dir e1).1 = (draft data_dir e2).1 <-> next_hex5 e1 = next_hex5 e2.
Proof.
  unfold next_hex5. rewrite <- collection_name_inj, !draft_unfold. cbn [fst].
  generalize (collection_name (uuid4 e1).1), (collection_name (uuid4 e2).1).
  intros c1 c2. split; [|by intros ->].
  intros H. apply (f_equal (fun v => getitem v "default")) in H.
  rewrite !getitem_default in H. apply Some_inj' in H.
  apply (f_equal (fun v => getpath v ["DOC_STORE_CONFIG"; "collection"])) in H.
  rewrite !(proj2 (proj2 (mongo_profile_fields _ _ _ _ _ _))) in H.
  by apply Some_PyStr_inj.
Qed.

Lemma split_eq_iff data_dir e1 e2 :
  (split data_dir e1).1 = (split data_dir e2).1 <-> next_hex5 e1 = next_hex5 e2.
Proof.
  unfold next_hex5. rewrite <- collection_name_inj, !split_unfold. cbn [fst].
  generalize (collection_name (uuid4 e1).1), (collection_name (uuid4 e2).1).
  intros c1 c2. split; [|by intros ->].
  intros H. apply (f_equal (fun v => getitem v "default")) in H.
  rewrite !getitem_default in H. apply Some_inj' in H.
  apply (f_equal (fun v => getpath v ["DOC_STORE_CONFIG"; "collection"])) in H.
  rewrite !(proj2 (proj2 (mongo_profile_fields _ _ _ _ _ _))) in H.
  by apply Some_PyStr_inj.
Qed.

Lemma mixed_eq_iff data_dir mappings include_xml e1 e2 :
  fst <$> mixed data_dir mappings include_xml e1
    = fst <$> mixed data_dir mappings include_xml e2
  <-> next_hex5 e1 = next_hex5 e2 /\
      next_hex5 (uuid4 e1).2 = next_hex5 (uuid4 e2).2.
Proof.
  unfold next_hex5. rewrite <- !collection_name_inj, !mixed_unfold.
  cbn [fmap option_fmap option_map fst].
  generalize (collection_name (uuid4 e1).1), (collection_name (uuid4 e2).1),
    (collection_name (uuid4 (uuid4 e1).2).1), (collection_name (uuid4 (uuid4 e2).2).1).
  intros c1 c2 c3 c4. split; [|by intros [-> ->]].
  intros H. apply Some_inj' in H.
  apply (f_equal stores_of) in H. rewrite !stores_of_mixed in H.
  apply Some_inj', pair_tail_inj in H. destruct H as [Hd Hs].
  apply (f_equal (fun v => getpath v ["DOC_STORE_CONFIG"; "collection"])) in Hd, Hs.
  rewrite !(proj2 (proj2 (mongo_profile_fields _ _ _ _ _ _))) in Hd.
  rewrite !(proj2 (proj2 (mongo_profile_fields _ _ _ _ _ _))) in Hs.
  split; by apply Some_PyStr_inj.
Qed.

(** C3, as amended.  The configuration-assembly functions are
    determined by their arguments together with the uuids they draw:
    for the same [data_dir], two calls of [draft_mongo_store_config],
    or of [split_mongo_store_config], return equal dictionaries if and
    only if the uuids the two calls draw have the same first five hex
    digits; two calls of [mixed_store_config] with the same arguments
    do if and only if that holds for the first and for the second uuid
    each of them draws. *)
Theorem config_determined_by_arguments_and_uuids
    data_dir mappings include_xml e1 e2 :
  ((draft data_dir e1).1 = (draft data_dir e2).1
     <-> next_hex5 e1 = next_hex5 e2) /\
  ((split data_dir e1).1 = (split data_dir e2).1
     <-> next_hex5 e1 = next_hex5 e2) /\
  (fst <$> mixed data_dir mappings include_xml e1
     = fst <$> mixed data_dir mappings include_xml e2
     <-> next_hex5 e1 = next_hex5 e2 /\
         next_hex5 (uuid4 e1).2 = next_hex5 (uuid4 e2).2).
Proof.
  split; [apply draft_eq_iff|]. split; [apply split_eq_iff|apply mixed_eq_iff].
Qed.

(** C4.  For every [data_dir], [mappings] and [include_xml] (and
    whatever uuids are drawn), [mixed_store_config] returns a
    dictionary whose only key is ['default']; the ['ENGINE'] of that
    profile is the mixed modulestore; its ['OPTIONS'] have exactly the
    keys ['mappings'], bound to the mappings given, and ['stores'],
    bound to the list of the ['default'] entries of the draft-mongo
    and split-mongo configurations, followed by that of the XML
    configuration if and only if [include_xml] is true. *)
Theorem mixed_store_config_shape data_dir mappings include_xml e :
  exists cfg e' opts dd sd xd stores,
    mixed data_dir mappings include_xml e = Some (cfg, e') /\
    keys cfg = {[ "default" ]} /\
    getpath cfg ["default"; "ENGINE"]
      = Some (PyStr "xmodule.modulestore.mixed.MixedModuleStore") /\
    getpath cfg ["default"; "OPTIONS"] = Some opts /\
    keys opts = {[ "mappings"; "stores" ]} /\
    getitem opts "mappings" = Some mappings /\
    getitem opts "stores" = Some (PyList stores) /\
    getitem (draft data_dir e).1 "default" = Some dd /\
    getitem (split data_dir (draft data_dir e).2).1 "default" = Some sd /\
    getitem (xml_store_config data_dir PyNone) "default" = Some xd /\
    stores = [dd; sd] ++ (if include_xml then [xd] else []) /\
    (xd ∈ stores <-> include_xml = true).
Proof.
  pose (dp := mongo_profile MONGO_HOST MONGO_PORT_NUM "draft"
                "xmodule.modulestore.mongo.draft.DraftModuleStore"
                (collection_name (uuid4 e).1) data_dir).
  pose (sp := mongo_profile MONGO_HOST MONGO_PORT_NUM "draft"
                "xmodule.modulestore.split_mongo.split_draft.DraftVersioningModuleStore"
                (collection_name (uuid4 (uuid4 e).2).1) data_dir).
  pose (xp := xml_profile data_dir PyNone).
  pose (stores := [dp; sp] ++ if include_xml then [xp] else []).
  exists (PyDict {[ "default" := mixed_profile mappings stores ]}),
    (uuid4 (uuid4 e).2).2,
    (PyDict {[ "mappings" := mappings; "stores" := PyList stores ]}),
    dp, sp, xp, stores.
  split; [apply mixed_unfold|].
  split; [apply keys_default|].
  split; [cbn [getpath]; rewrite getitem_default;
          by rewrite (proj1 (mixed_profile_fields mappings stores))|].
  split; [cbn [getpath]; rewrite getitem_default;
          by rewrite (proj1 (proj2 (mixed_profile_fields mappings stores)))|].
  split; [unfold keys; rewrite dom_insert_L, dom_singleton_L; set_solver|].
  split; [by vm_compute|].
  split; [by vm_compute|].
  split; [rewrite draft_unfold; apply getitem_default|].
  split; [rewrite draft_unfold, split_unfold; apply getitem_default|].
  split; [rewrite xml_unfold; apply getitem_default|].
  split; [reflexivity|].
  assert (xp <> dp /\ xp <> sp) as [Hd Hs].
  { split; intros H; apply (f_equal (fun v => getitem v "NAME")) in H;
      subst xp dp sp;
      rewrite (proj1 (xml_profile_fields data_dir PyNone)), (proj1 (mongo_profile_fields _ _ _ _ _ _)) in H;
      by apply Some_PyStr_inj in H. }
  subst stores. destruct include_xml; cbn [app]; split; try done.
  - intros _. set_solver.
  - intros Hin. exfalso.
    apply elem_of_cons in Hin as [?|Hin]; [done|].
    apply elem_of_cons in Hin as [?|Hin]; [done|].
    by apply elem_of_nil in Hin.
Qed.

(** The [NAME] and [ENGINE] values along the [stores] list. *)
Lemma mixed_store_fields data_dir mappings include_xml e :
  exists cfg e',
    mixed data_dir mappings include_xml e = Some (cfg, e') /\
    store_field "NAME" cfg
      = Some ([PyStr "draft"; PyStr "draft"]
              ++ if include_xml then [PyStr "xml"] else []) /\
    store_field "ENGINE" cfg
      = Some ([PyStr "xmodule.modulestore.mongo.draft.DraftModuleStore";
               PyStr "xmodule.modulestore.split_mongo.split_draft.DraftVersioningModuleStore"]
              ++ if include_xml
                 then [PyStr "xmodule.modulestore.xml.XMLModuleStore"] else []).
Proof.
  eexists _, _. split; [apply mixed_unfold|].
  unfold store_field. rewrite stores_of_mixed. cbn [mbind option_bind].
  generalize (collection_name (uuid4 e).1), (collection_name (uuid4 (uuid4 e).2).1).
  intros c1 c2.
  destruct include_xml; cbn [app mapM mbind option_bind fmap option_fmap option_map];
    rewrite ?(proj1 (mongo_profile_fields _ _ _ _ _ _)),
            ?(proj1 (proj2 (mongo_profile_fields _ _ _ _ _ _))),
            ?(proj1 (xml_profile_fields data_dir PyNone)),
            ?(proj2 (xml_profile_fields data_dir PyNone)); done.
Qed.

(** C5, the defect.  [split_mongo_store_config] names its profile
    ['draft'], as [draft_mongo_store_config] does, while
    [xml_store_config] gives its profile a name of its own.  So for
    every [data_dir], [mappings], [include_xml] and state of the uuid
    source, the [stores] list of the result of [mixed_store_config]
    begins with the two ['default'] profiles of the draft-mongo and
    split-mongo configurations, and the [NAME] values along the list
    are ['draft'], ['draft'] and, with the XML store, ['xml']: they are
    not pairwise distinct.  The [ENGINE] values along the list are. *)
Theorem split_profile_named_draft data_dir mappings include_xml e :
  getpath (draft data_dir e).1 ["default"; "NAME"] = Some (PyStr "draft") /\
  getpath (split data_dir e).1 ["default"; "NAME"] = Some (PyStr "draft") /\
  getpath (xml_store_config data_dir PyNone) ["default"; "NAME"] = Some (PyStr "xml") /\
  exists cfg e' dd sd later names engines,
    mixed data_dir mappings include_xml e = Some (cfg, e') /\
    stores_of cfg = Some (dd :: sd :: later) /\
    getitem (draft data_dir e).1 "default" = Some dd /\
    getitem (split data_dir (draft data_dir e).2).1 "default" = Some sd /\
    getitem dd "NAME" = Some (PyStr "draft") /\
    getitem sd "NAME" = Some (PyStr "draft") /\
    store_field "NAME" cfg = Some names /\
    names = PyStr "draft" :: PyStr "draft"
              :: (if include_xml then [PyStr "xml"] else []) /\
    ~ NoDup names /\
    store_field "ENGINE" cfg = Some engines /\
    NoDup engines.
Proof.
  split.
  { rewrite draft_unfold. cbn [fst getpath]. rewrite getitem_default.
    by rewrite (proj1 (mongo_profile_fields _ _ _ _ _ _)). }
  split.
  { rewrite split_unfold. cbn [fst getpath]. rewrite getitem_default.
    by rewrite (proj1 (mongo_profile_fields _ _ _ _ _ _)). }
  split.
  { rewrite xml_unfold. cbn [getpath]. rewrite getitem_default.
    by rewrite (proj1 (xml_profile_fields data_dir PyNone)). }
  destruct (mixed_store_fields data_dir mappings include_xml e)
    as (cfg & e' & Hmixed & Hnames & Hengines).
  pose proof Hmixed as Hcfg. rewrite mixed_unfold in Hcfg.
  apply Some_inj' in Hcfg. apply (f_equal fst) in Hcfg. cbn [fst] in Hcfg.
  eexists cfg, e', _, _, _, _, _.
  split; [exact Hmixed|].
  split; [rewrite <- Hcfg; apply stores_of_mixed|].
  split; [rewrite draft_unfold; apply getitem_default|].
  split; [rewrite draft_unfold, split_unfold; apply getitem_default|].
  split; [apply (proj1 (mongo_profile_fields _ _ _ _ _ _))|].
  split; [apply (proj1 (mongo_profile_fields _ _ _ _ _ _))|].
  split; [exact Hnames|].
  split; [reflexivity|].
  split.
  { intros H. apply NoDup_cons in H as [H _]. apply H. by left. }
  split; [exact Hengines|].
  destruct include_xml; cbn [app]; repeat constructor;
    rewrite ?not_elem_of_cons; repeat split; try discriminate;
    apply not_elem_of_nil.
Qed.

End WithMongo.

(** C3, counterexample.  With data directory [/tmp] and an entropy
    source whose uuids begin [00000], [00001], [00002], [00003], a
    second call of each of the three functions, made right after the
    first with the same arguments, returns a different dictionary. *)
Lemma repeated_calls_differ :
  let host := "localhost" in
  let port := 27017%Z in
  let e := counting_entropy in
  (draft_mongo_store_config host port "/tmp" e).1
    <> (draft_mongo_store_config host port "/tmp"
          (draft_mongo_store_config host port "/tmp" e).2).1 /\
  (split_mongo_store_config host port "/tmp" e).1
    <> (split_mongo_store_config host port "/tmp"
          (split_mongo_store_config host port "/tmp" e).2).1 /\
  fst <$> mixed_store_config host port "/tmp" (PyDict ∅) true e
    <> fst <$> mixed_store_config host port "/tmp" (PyDict ∅) true
                 (uuid4 (uuid4 e).2).2 /\
  snd <$> mixed_store_config host port "/tmp" (PyDict ∅) true e
    = Some (uuid4 (uuid4 e).2).2.
Proof.
  intros host port e. split; [|split; [|split]].
  - rewrite draft_eq_iff. vm_compute. discriminate.
  - rewrite split_eq_iff. vm_compute. discriminate.
  - rewrite mixed_eq_iff. vm_compute. intros [H _]. discriminate.
  - by rewrite mixed_unfold.
Qed.

(** C5, at the failing input.  With data directory [/tmp], no
    mappings and the XML store included, the [NAME] values along the
    [stores] list are ['draft'], ['draft'], ['xml']: the first two
    coincide. *)
Lemma store_names_repeat :
  exists cfg e' names,
    mixed_store_config "localhost" 27017 "/tmp" (PyDict ∅) true counting_entropy
      = Some (cfg, e') /\
    store_field "NAME" cfg = Some names /\
    names = [PyStr "draft"; PyStr "draft"; PyStr "xml"] /\
    ~ NoDup names.
Proof.
  destruct (mixed_store_fields "localhost" 27017 "/tmp" (PyDict ∅) true counting_entropy)
    as (cfg & e' & Hmixed & Hnames & _).
  exists cfg, e', [PyStr "draft"; PyStr "draft"; PyStr "xml"].
  split; [exact Hmixed|]. split; [exact Hnames|]. split; [reflexivity|].
  intros H. apply NoDup_cons in H as [H _]. apply H. by left.
Qed.

End ConfigFacts.

(** ** Test lifecycle hooks *)

Module LifecycleFacts.

Import Lifecycle.

(** What dropping one store amounts to: for a store with a database,
    the database is dropped and its connection closed. *)
Definition store_drops (s : store) : list call :=
  match store_database s with
  | Some db => [DropDatabase (connection db) (name db); Disconnect (connection db)]
  | None => []
  end.

(** The calls that touch a Mongo database or its connection. *)
Definition touches_mongo (c : call) : Prop :=
  match c with
  | DropDatabase _ _ | Disconnect _ => True
  | _ => False
  end.

(** The calls the clean-up loop of [_post_teardown] can make. *)
Definition cleans_up (c : call) : Prop :=
  match c with
  | Disconnect _ | IsDir _ | Rmtree _ => True
  | _ => False
  end.

Section AnyEnvironment.

Context {W : Type}.
Variable handle : forall c : call, W -> resp c * W.

#[local] Abbreviation run := (@run call resp W handle).
#[local] Abbreviation perform := (@perform call resp).

Lemma store_drops_run (s : store) w :
  let body :=
    match store_database s with
    | Some db =>
        do* perform (DropDatabase (connection db) (name db)) in
        perform (Disconnect (connection db))
    | None => Ret tt
    end in
  returned (run body w) = Ok tt /\ made (run body w) = store_drops s.
Proof.
  unfold store_drops. destruct (store_database s) as [db|]; simpl; [|done].
  unfold Effect.run. simpl.
  destruct (handle (DropDatabase _ _) w) as [[] w1]. simpl.
  destruct (handle (Disconnect _) w1) as [[] w2]. done.
Qed.

(** What [drop_mongo_collections] does, in any environment: it
    returns, and its calls are fixed by the store [modulestore()]
    hands out. *)
Lemma drop_mongo_collections_run w :
  let ms := (handle Modulestore w).1 in
  returned (run drop_mongo_collections w) = Ok tt /\
  made (run drop_mongo_collections w)
  = Modulestore
      :: (if is_xml ms then [] else flat_map store_drops (modulestores ms))
      ++ ContentstoreClear
      :: (if has_close_connections ms then [CloseConnections] else []).
Proof.
  intros ms. unfold drop_mongo_collections.
  pose proof (returned_perform handle Modulestore w) as H0.
  rewrite (returned_bind_ok _ _ _ _ _ H0), (made_bind_ok _ _ _ _ _ H0).
  rewrite made_perform, final_perform. fold ms. cbv beta.
  set (w1 := (handle Modulestore w).2).
  set (loop := if negb (is_xml ms) then _ else _).
  assert (forall w', returned (run loop w') = Ok tt /\
            made (run loop w')
            = if is_xml ms then [] else flat_map store_drops (modulestores ms))
    as Hloop.
  { intros w'. subst loop. destruct (is_xml ms); simpl; [done|].
    apply for_each_made. intros s w''. apply store_drops_run. }
  destruct (Hloop w1) as [Hr Hm].
  rewrite (returned_bind_ok _ _ _ _ _ Hr), (made_bind_ok _ _ _ _ _ Hr), Hm.
  set (w2 := final (run loop w1)).
  pose proof (returned_perform handle ContentstoreClear w2) as Hc.
  destruct (handle ContentstoreClear w2).1 eqn:E.
  rewrite (returned_bind_ok _ _ _ _ _ Hc), (made_bind_ok _ _ _ _ _ Hc).
  rewrite made_perform, final_perform.
  destruct (has_close_connections ms); cbv iota.
  - rewrite (returned_perform handle CloseConnections),
      (made_perform handle CloseConnections).
    by destruct (handle CloseConnections _).1.
  - done.
Qed.

(** Where [drop_mongo_collections] leaves the world: the cache has
    been cleared after the loop, and only [close_connections] may
    have run since. *)
Lemma drop_mongo_collections_final w :
  let ms := (handle Modulestore w).1 in
  exists w2,
    final (run drop_mongo_collections w)
    = if has_close_connections ms
      then (handle CloseConnections (handle ContentstoreClear w2).2).2
      else (handle ContentstoreClear w2).2.
Proof.
  intros ms. unfold drop_mongo_collections.
  pose proof (returned_perform handle Modulestore w) as H0.
  rewrite (final_bind_ok _ _ _ _ _ H0), final_perform. fold ms. cbv beta.
  set (w1 := (handle Modulestore w).2).
  set (loop := if negb (is_xml ms) then _ else _).
  assert (returned (run loop w1) = Ok tt) as Hr.
  { subst loop. destruct (is_xml ms); simpl; [done|].
    apply (for_each_made _ store_drops). intros s w''. apply store_drops_run. }
  rewrite (final_bind_ok _ _ _ _ _ Hr).
  exists (final (run loop w1)).
  set (w2 := final (run loop w1)).
  pose proof (returned_perform handle ContentstoreClear w2) as Hc.
  destruct (handle ContentstoreClear w2).1 eqn:E.
  rewrite (final_bind_ok _ _ _ _ _ Hc), final_perform.
  destruct (has_close_connections ms); cbv iota; [|done].
  by rewrite (final_perform handle CloseConnections).
Qed.

(** One turn of the clean-up loop of [_post_teardown]. *)
Lemma cleanup_turn_run (s : store) w :
  let body :=
    do* match store_database s with
        | Some db => perform (Disconnect (connection db))
        | None => Ret tt
        end in
    match fs_root s with
    | Some fs_root =>
        if String.prefix "/tmp/" fs_root then
          let* isdir := perform (IsDir fs_root) in
          if isdir : bool then perform (Rmtree fs_root) else Ret tt
        else Ret tt
    | None => Ret tt
    end in
  returned (run body w) = Ok tt /\ Forall cleans_up (made (run body w)).
Proof.
  simpl. unfold Effect.run.
  destruct (store_database s) as [db|],  (fs_root s) as [root|]; simpl;
    repeat match goal with
      | |- context [handle ?c ?w] =>
          let x := fresh "x" in let w' := fresh "w" in
          destruct (handle c w) as [x w']; simpl in *;
          try destruct x; simpl
      | |- context [String.prefix ?a ?b] => destruct (String.prefix a b); simpl
      end;
    (split; [done|]); repeat constructor.
Qed.

Lemma pre_setup_run w :
  returned (run _pre_setup w) = Ok tt /\
  made (run _pre_setup w) = made (run drop_mongo_collections w) ++ [SuperPreSetup].
Proof.
  unfold _pre_setup.
  destruct (drop_mongo_collections_run w) as [Hr _].
  rewrite (returned_bind_ok _ _ _ _ _ Hr), (made_bind_ok _ _ _ _ _ Hr).
  rewrite (returned_perform handle SuperPreSetup), (made_perform handle SuperPreSetup).
  by destruct (handle SuperPreSetup _).1.
Qed.

Lemma post_teardown_run w :
  returned (run _post_teardown w) = Ok tt /\
  exists cleanup,
    made (run _post_teardown w)
    = made (run drop_mongo_collections w)
        ++ [ClearExistingModulestores; ClearRequestCache; Modulestore]
        ++ cleanup ++ [SuperPostTeardown] /\
    Forall cleans_up cleanup.
Proof.
  unfold _post_teardown.
  destruct (drop_mongo_collections_run w) as [Hr _].
  rewrite (returned_bind_ok _ _ _ _ _ Hr), (made_bind_ok _ _ _ _ _ Hr).
  set (w1 := final (run drop_mongo_collections w)).
  pose proof (returned_perform handle ClearExistingModulestores w1) as H1.
  destruct (handle ClearExistingModulestores w1).1 eqn:E1.
  rewrite (returned_bind_ok _ _ _ _ _ H1), (made_bind_ok _ _ _ _ _ H1).
  rewrite made_perform, final_perform.
  set (w2 := (handle ClearExistingModulestores w1).2).
  pose proof (returned_perform handle ClearRequestCache w2) as H2.
  destruct (handle ClearRequestCache w2).1 eqn:E2.
  rewrite (returned_bind_ok _ _ _ _ _ H2), (made_bind_ok _ _ _ _ _ H2).
  rewrite made_perform, final_perform.
  set (w3 := (handle ClearRequestCache w2).2).
  pose proof (returned_perform handle Modulestore w3) as H3.
  rewrite (returned_bind_ok _ _ _ _ _ H3), (made_bind_ok _ _ _ _ _ H3).
  rewrite made_perform, final_perform.
  set (ms := (handle Modulestore w3).1).
  set (w4 := (handle Modulestore w3).2).
  set (loop := if negb (is_xml ms) then _ else _).
  assert (returned (run loop w4) = Ok tt /\ Forall cleans_up (made (run loop w4)))
    as [Hl Hc].
  { subst loop. destruct (is_xml ms); simpl; [by split; [|constructor]|].
    apply for_each_ok. intros s w'. apply cleanup_turn_run. }
  rewrite (returned_bind_ok _ _ _ _ _ Hl), (made_bind_ok _ _ _ _ _ Hl).
  rewrite (returned_perform handle SuperPostTeardown),
    (made_perform handle SuperPostTeardown).
  split; [by destruct (handle SuperPostTeardown _).1|].
  exists (made (run loop w4)). split; [|done].
  by rewrite <- ?app_assoc.
Qed.

End AnyEnvironment.

(** C6.  In any environment, [_pre_setup] first makes the calls of
    [drop_mongo_collections] and only then, last, delegates to the
    superclass; [_post_teardown] first makes the calls of
    [drop_mongo_collections], then clears the existing modulestores and
    the request cache, and after closing connections and removing
    temporary directories delegates to the superclass, last.  Neither
    hook raises, and the calls of [drop_mongo_collections] that come
    first contain no delegation: they are the look-up of the modulestore,
    the drop of every database of a store that is not XML, the clearing
    of the content store and, if there is one, [close_connections]. *)
Theorem hooks_flush_before_delegating
    {W : Type} (handle : forall c : call, W -> resp c * W) (w : W) :
  let flush := made (run handle drop_mongo_collections w) in
  let ms := (handle Modulestore w).1 in
  flush = Modulestore
            :: (if is_xml ms then [] else flat_map store_drops (modulestores ms))
            ++ ContentstoreClear
            :: (if has_close_connections ms then [CloseConnections] else []) /\
  (SuperPreSetup ∉ flush) /\ (SuperPostTeardown ∉ flush) /\
  returned (run handle _pre_setup w) = Ok tt /\
  made (run handle _pre_setup w) = flush ++ [SuperPreSetup] /\
  returned (run handle _post_teardown w) = Ok tt /\
  exists cleanup,
    made (run handle _post_teardown w)
    = flush ++ [ClearExistingModulestores; ClearRequestCache; Modulestore]
        ++ cleanup ++ [SuperPostTeardown] /\
    Forall cleans_up cleanup.
Proof.
  intros flush ms.
  destruct (drop_mongo_collections_run handle w) as [_ Hflush].
  destruct (pre_setup_run handle w) as [Hpre1 Hpre2].
  destruct (post_teardown_run handle w) as [Hpost1 Hpost2].
  fold flush in Hflush, Hpre2, Hpost2. fold ms in Hflush.
  assert (Forall (fun c => c <> SuperPreSetup /\ c <> SuperPostTeardown) flush) as Hno.
  { rewrite Hflush. constructor; [done|]. apply Forall_app. split.
    - destruct (is_xml ms); [constructor|].
      apply Forall_flat_map, Forall_forall. intros s _. unfold store_drops.
      destruct (store_database s); repeat constructor; done.
    - destruct (has_close_connections ms); repeat constructor; done. }
  rewrite Forall_forall in Hno.
  split_and!; try done.
  - intros Hin. by destruct (Hno _ Hin).
  - intros Hin. by destruct (Hno _ Hin).
Qed.

(** C10.  In any environment and whatever store [modulestore()] hands
    out, [drop_mongo_collections] returns and clears the content store
    exactly once, after the loop over the stores; when the store is an
    [XMLModuleStore] its calls are just the look-up of the store, the
    clearing of the content store and, if the store has the method,
    [close_connections], none of them touching a Mongo database;
    otherwise the drops come in between.  In the reference world the
    content store is empty afterwards. *)
Theorem contentstore_cleared_on_every_invocation
    {W : Type} (handle : forall c : call, W -> resp c * W) (w : W) :
  let flush := made (run handle drop_mongo_collections w) in
  let ms := (handle Modulestore w).1 in
  let closing := if has_close_connections ms then [CloseConnections] else [] in
  returned (run handle drop_mongo_collections w) = Ok tt /\
  (exists before,
     flush = before ++ ContentstoreClear :: closing /\
     ContentstoreClear ∉ before) /\
  (if is_xml ms
   then flush = Modulestore :: ContentstoreClear :: closing /\
        Forall (fun c => ~ touches_mongo c) flush
   else flush = Modulestore :: flat_map store_drops (modulestores ms)
                  ++ ContentstoreClear :: closing) /\
  (forall w0 : world,
     contentstore (final (run step drop_mongo_collections w0)) = ∅).
Proof.
  intros flush ms closing.
  destruct (drop_mongo_collections_run handle w) as [Hr Hflush].
  fold flush ms closing in Hflush.
  split_and!; [done| | |].
  - eexists (Modulestore :: _). split; [exact Hflush|].
    apply not_elem_of_cons. split; [done|].
    destruct (is_xml ms); [apply not_elem_of_nil|].
    intros Hin. apply list_elem_of_In, in_flat_map in Hin as (s & _ & Hin).
    unfold store_drops in Hin. destruct (store_database s); simpl in Hin; [|done].
    by destruct Hin as [|[|]].
  - destruct (is_xml ms); [|done]. split; [done|].
    rewrite Hflush. subst closing.
    destruct (has_close_connections ms); repeat constructor; simpl; tauto.
  - intros w0.
    destruct (drop_mongo_collections_final step w0) as [w2 ->].
    destruct (has_close_connections (step Modulestore w0).1); reflexivity.
Qed.

End LifecycleFacts.

(** ** The [edxnotes] decorator *)

Module EdxNotesFacts.

Import EdxNotes.

(** A call with its answer, as recorded in a trace. *)
Definition answered (c : call) (x : resp c) : event resp := existT c x.

(** The calls that run an opaque function. *)
Definition is_invoke (c : call) : Prop :=
  match c with
  | Invoke _ _ _ _ => True
  | _ => False
  end.

Section AnyEnvironment.

Context {W : Type}.
Variable handle : forall c : call, W -> resp c * W.

#[local] Abbreviation run := (@run call resp W handle).

(** What one call of the wrapper does, whatever the original is. *)
Lemma wrapper_run original self args kwargs w :
  let is_studio :=
    truthy (getattr_default (system self) "is_author_mode" (PyBool false)) in
  let c := handle (GetCourse (descriptor_runtime_modulestore self)
                             (runtime_course_id self)) w in
  let f := handle (IsFeatureEnabled c.1) c.2 in
  let skip := if is_studio then true else negb f.1 in
  let w' := if is_studio then c.2 else f.2 in
  let pre := answered (GetCourse _ _) c.1
             :: if is_studio then [] else [answered (IsFeatureEnabled c.1) f.1] in
  let inner := run (apply original self args kwargs) w' in
  let o := run (apply (GetHtmlWrapper original) self args kwargs) w in
  if skip then o = Outcome (returned inner) (final inner) (pre ++ calls inner)
  else match returned inner with
       | Exn e => o = Outcome (Exn e) (final inner) (pre ++ calls inner)
       | Ok content =>
           exists post context rendered,
             returned o = Ok rendered /\
             calls o = pre ++ calls inner ++ post
                         ++ [answered (RenderToString "edxnotes_wrapper.html" context)
                                      rendered] /\
             context !! "content" = Some content /\
             Forall (fun ev => ~ is_invoke (called ev)) post
       end.
Proof.
  intros is_studio c f skip w' pre inner o.
  subst o. cbn [apply]. fold is_studio.
  rewrite run_bind. unfold and_then. rewrite run_perform.
  cbn [returned final calls]. fold c.
  rewrite run_from_bind.
  destruct is_studio eqn:Hs; subst skip w' pre.
  - cbn [run_from and_then returned final calls].
    subst inner. by rewrite run_from_calls.
  - cbn [bind perform]. cbn [run_from]. fold f.
    destruct f as [en w2] eqn:Hf. cbn [fst snd negb and_then returned final calls run_from app].
    destruct en; cbn [negb].
    + rewrite run_from_bind, run_from_calls.
      unfold and_then. subst inner. cbn [fst snd returned final calls].
      set (inner := run (apply original self args kwargs) w2).
      destruct (returned inner) as [content|e]; [|done].
      cbn [bind perform run_from].
      destruct (handle GenerateUid _) as [uid wa].
      destruct (handle (Reverse _ _) _) as [url wb].
      destruct (handle (JsonDumps _) _) as [vis wc].
      destruct (handle (UnicodeEncodeUtf8 (scope_ids_usage_id self)) _) as [usage wd].
      destruct (handle (UnicodeEncodeUtf8 (runtime_course_id self)) _) as [cid we].
      destruct (handle (GetRealUser _) _) as [user wf].
      destruct (handle (GetToken _) _) as [token wg].
      destruct (handle GetEndpoint _) as [endpoint wh].
      destruct (handle SettingsDEBUG _) as [debug wi].
      destruct (handle (RenderToString _ _) _) as [rendered wj].
      cbn [returned calls]. rewrite <- !app_assoc. cbn [app].
      exists [answered GenerateUid uid;
              answered (Reverse "edxnotes_visibility" {[ "course_id" := id c.1 ]}) url;
              answered (JsonDumps (edxnotes_visibility c.1)) vis;
              answered (UnicodeEncodeUtf8 (scope_ids_usage_id self)) usage;
              answered (UnicodeEncodeUtf8 (runtime_course_id self)) cid;
              answered (GetRealUser (runtime_anonymous_student_id self)) user;
              answered (GetToken user) token;
              answered GetEndpoint endpoint;
              answered SettingsDEBUG debug].
      eexists _, rendered.
      split; [reflexivity|]. split; [reflexivity|].
      split; [by vm_compute|].
      repeat constructor; cbn; tauto.
    + subst inner. cbn [fst snd]. by rewrite run_from_calls.
Qed.

(** The calls of the wrapper are those of one run of the original,
    between calls that run no function, and the wrapper raises only
    what the original raises. *)
Lemma wrapper_calls original self args kwargs w :
  exists pre post w',
    let inner := run (apply original self args kwargs) w' in
    let o := run (apply (GetHtmlWrapper original) self args kwargs) w in
    calls o = pre ++ calls inner ++ post /\
    Forall (fun ev => ~ is_invoke (called ev)) pre /\
    Forall (fun ev => ~ is_invoke (called ev)) post /\
    (forall e, returned o = Exn e -> returned inner = Exn e).
Proof.
  pose proof (wrapper_run original self args kwargs w) as H.
  cbv zeta in H.
  set (is_studio := truthy _) in *.
  set (c := handle (GetCourse _ _) w) in *.
  set (f := handle (IsFeatureEnabled c.1) c.2) in *.
  set (w' := if is_studio then c.2 else f.2) in *.
  set (pre := _ :: (if is_studio then [] else _)) in *.
  assert (Forall (fun ev : event resp => ~ is_invoke (called ev)) pre) as Hpre.
  { subst pre. destruct is_studio; repeat constructor; cbn; tauto. }
  destruct (if is_studio then true else negb f.1).
  - exists pre, [], w'. cbv zeta.
    rewrite H. cbn [calls returned]. rewrite app_nil_r.
    split; [done|]. split; [done|]. split; [constructor|done].
  - destruct (returned (run (apply original self args kwargs) w')) as [content|e] eqn:Hr.
    + destruct H as (post & context & rendered & Hret & Hcalls & _ & Hpost).
      exists pre, (post ++ [answered (RenderToString "edxnotes_wrapper.html" context)
                                    rendered]), w'.
      cbv zeta. rewrite Hcalls, Hret.
      split; [done|]. split; [done|]. split; [|done].
      apply Forall_app. split; [done|]. repeat constructor. cbn. tauto.
    + exists pre, [], w'. cbv zeta.
      rewrite H. cbn [calls returned]. rewrite app_nil_r, Hr.
      split; [done|]. split; [done|]. split; [constructor|done].
Qed.

Lemma original_calls_app f (t1 t2 : Effect.trace resp) :
  original_calls f (t1 ++ t2) = original_calls f t1 ++ original_calls f t2.
Proof. apply omap_app. Qed.

Lemma original_calls_none f (t : Effect.trace resp) :
  Forall (fun ev => ~ is_invoke (called ev)) t -> original_calls f t = [].
Proof.
  induction 1 as [|[c x] t Hc _ IH]; [done|].
  change (original_calls f (existT c x :: t))
    with (match (match c with
                 | Invoke g s a k =>
                     if decide (g = f) then Some (s, a, k) else None
                 | _ => None
                 end) with
          | Some y => y :: original_calls f t
          | None => original_calls f t
          end).
  rewrite IH. destruct c; cbn in Hc; try done; tauto.
Qed.

Lemma function_calls f self args kwargs w :
  original_calls f (calls (run (apply (Function f) self args kwargs) w))
  = [(self, args, kwargs)].
Proof.
  cbn [apply]. rewrite run_bind. unfold and_then. rewrite run_perform.
  cbn [returned final calls].
  destruct (handle (Invoke f self args kwargs) w).1; cbn;
    by rewrite decide_True.
Qed.

End AnyEnvironment.

(** *** The decorator and the class it is given *)

Lemma edxnotes_ok h cls h' cls' :
  edxnotes h cls = Ok (h', cls') ->
  exists original c,
    class_getattr h cls "get_html" = Some original /\
    h !! cls = Some c /\
    cls' = cls /\
    h' = <[cls := Class (<["get_html" := GetHtmlWrapper original]> (dict c))
                        (mro_tail c)]> h.
Proof.
  unfold edxnotes. destruct (class_getattr h cls "get_html") as [original|] eqn:Hg; [|done].
  intros [= <- <-]. exists original.
  unfold class_getattr in Hg. unfold class_setattr.
  destruct (h !! cls) as [c|] eqn:Hc; [|done].
  by exists c.
Qed.

(** A class's own entry for a name other than [get_html] is the same
    before and after. *)
Lemma own_dict_unchanged (h : heap) cls c v d name :
  h !! cls = Some c -> name <> "get_html" ->
  (b ← <[cls := Class (<["get_html" := v]> (dict c)) (mro_tail c)]> h !! d; dict b !! name)
  = (b ← h !! d; dict b !! name).
Proof.
  intros Hc Hn. destruct (decide (d = cls)) as [->|Hd].
  - rewrite lookup_insert_eq, Hc. cbn. by rewrite lookup_insert_ne.
  - by rewrite lookup_insert_ne.
Qed.

Lemma class_getattr_unchanged (h : heap) cls c v d name :
  h !! cls = Some c -> name <> "get_html" ->
  class_getattr (<[cls := Class (<["get_html" := v]> (dict c)) (mro_tail c)]> h) d name
  = class_getattr h d name.
Proof.
  intros Hc Hn. unfold class_getattr.
  destruct (decide (d = cls)) as [->|Hd].
  - rewrite lookup_insert_eq, Hc. cbn.
    rewrite lookup_insert_ne by done.
    destruct (dict c !! name); [done|].
    do 2 f_equal. apply list_fmap_ext. intros _ b _.
    by apply own_dict_unchanged.
  - rewrite lookup_insert_ne by done.
    destruct (h !! d) as [cd|]; [|done]. cbn.
    destruct (dict cd !! name); [done|].
    do 2 f_equal. apply list_fmap_ext. intros _ b _.
    by apply own_dict_unchanged.
Qed.

Lemma class_getattr_wrapper (h : heap) cls c v :
  class_getattr (<[cls := Class (<["get_html" := v]> (dict c)) (mro_tail c)]> h)
                cls "get_html" = Some v.
Proof.
  unfold class_getattr. rewrite lookup_insert_eq. cbn. by rewrite lookup_insert_eq.
Qed.

End EdxNotesFacts.

(** ** The [edxnotes] decorator: the stated properties *)

Module EdxNotesProperties.

Import EdxNotes EdxNotesFacts.

(** *** Sample data *)

(** A heap with one component class, at address 5: its [get_html] is
    the function 1, and it has one more attribute. *)
Definition sample_heap : heap :=
  {[ 5%nat := Class {[ "get_html" := Function 1;
                       "display_name" := Data (PyStr "Text") ]} [] ]}.

Definition sample_decorated : heap :=
  {[ 5%nat := Class {[ "get_html" := GetHtmlWrapper (Function 1);
                       "display_name" := Data (PyStr "Text") ]} [] ]}.

(** A component whose system has no [is_author_mode]. *)
Definition sample_component : component :=
  Component ∅ 0 (PyStr "edX/toy/2012_Fall") (PyStr "anonymous")
            (PyStr "i4x://edX/toy/html/toyhtml").

(** An environment without state: the feature is on, functions return
    a paragraph, everything else an empty string. *)
Definition sample_environment (c : call) (w : unit) : resp c * unit :=
  match c return resp c * unit with
  | GetCourse _ course_id => (Course course_id (PyBool true), w)
  | IsFeatureEnabled _ => (true, w)
  | Invoke _ _ _ _ => (Ok (PyStr "<p>toy</p>"), w)
  | _ => (PyStr "", w)
  end.

(** C8.  When [edxnotes(cls)] returns, it returns the class object it
    was given; in the heap afterwards that class has [get_html] bound to
    the wrapper around what [get_html] was, every other attribute of
    every class reads as before, the class's own dictionary differs from
    the old one in the [get_html] entry only, its bases are the same,
    and all other class objects are untouched. *)
Theorem edxnotes_rebinds_only_get_html (h : heap) (cls : nat) (h' : heap) (cls' : nat) :
  edxnotes h cls = Ok (h', cls') ->
  cls' = cls /\
  (exists original,
     class_getattr h cls "get_html" = Some original /\
     class_getattr h' cls "get_html" = Some (GetHtmlWrapper original)) /\
  (forall d name, name <> "get_html" ->
     class_getattr h' d name = class_getattr h d name) /\
  (exists c c',
     h !! cls = Some c /\ h' !! cls = Some c' /\
     mro_tail c' = mro_tail c /\
     forall name, name <> "get_html" -> dict c' !! name = dict c !! name) /\
  (forall d, d <> cls -> h' !! d = h !! d).
Proof.
  intros H. apply edxnotes_ok in H as (original & c & Hg & Hc & -> & ->).
  split; [done|]. split; [|split; [|split]].
  - exists original. split; [done|]. apply class_getattr_wrapper.
  - intros d name Hn. by apply class_getattr_unchanged.
  - eexists c, _. split; [done|]. split; [apply lookup_insert_eq|].
    split; [done|]. intros name Hn. cbn. by rewrite lookup_insert_ne.
  - intros d Hd. by rewrite lookup_insert_ne.
Qed.

Lemma edxnotes_rebinds_only_get_html_witness :
  edxnotes sample_heap 5 = Ok (sample_decorated, 5%nat) /\
  (forall d, d <> 5%nat -> sample_decorated !! d = sample_heap !! d).
Proof.
  assert (edxnotes sample_heap 5 = Ok (sample_decorated, 5%nat)) as H
    by (vm_compute; reflexivity).
  split; [exact H|].
  apply (edxnotes_rebinds_only_get_html sample_heap 5 sample_decorated 5 H).
Defined.

(** What the render branch yields, given what the original returned:
    the original's exception, or the answer of the final
    [render_to_string('edxnotes_wrapper.html', context)] whose context
    has the original's output under ['content']. *)
Definition wrapped {W} (o inner : outcome resp W pyval) : Prop :=
  match returned inner with
  | Ok content =>
      exists context rendered,
        returned o = Ok rendered /\
        last (calls o)
          = Some (answered (RenderToString "edxnotes_wrapper.html" context) rendered) /\
        context !! "content" = Some content
  | Exn e => returned o = Exn e
  end.

Lemma wrapper_two_way {W} (handle : forall c : call, W -> resp c * W)
    original self args kwargs w :
  let is_studio :=
    truthy (getattr_default (system self) "is_author_mode" (PyBool false)) in
  let c := handle (GetCourse (descriptor_runtime_modulestore self)
                             (runtime_course_id self)) w in
  let f := handle (IsFeatureEnabled c.1) c.2 in
  let inner := run handle (apply original self args kwargs)
                   (if is_studio then c.2 else f.2) in
  let o := run handle (apply (GetHtmlWrapper original) self args kwargs) w in
  if is_studio || negb f.1
  then returned o = returned inner
  else wrapped o inner.
Proof.
  pose proof (wrapper_run handle original self args kwargs w) as H.
  cbv zeta in *.
  set (is_studio := truthy _) in *.
  set (c := handle (GetCourse _ _) w) in *.
  set (f := handle (IsFeatureEnabled c.1) c.2) in *.
  replace (is_studio || negb f.1) with (if is_studio then true else negb f.1)
    by (by destruct is_studio).
  destruct (if is_studio then true else negb f.1).
  - by rewrite H.
  - unfold wrapped.
    destruct (returned (run handle (apply original self args kwargs) _)) as [content|e].
    + destruct H as (post & context & rendered & Hret & Hcalls & Hctx & _).
      exists context, rendered. split; [done|]. split; [|done].
      by rewrite Hcalls, !app_assoc, last_snoc.
    + by rewrite H.
Qed.

(** C1.  For every class that [edxnotes] has decorated, [get_html] is
    the wrapper around the original [get_html]; and in any environment
    a call of it first looks the course up and then, if the system's
    [is_author_mode] is true or the feature is not enabled for that
    course, returns exactly what the original returns for the same
    [self], [args] and [kwargs]; otherwise it returns the rendering of
    [edxnotes_wrapper.html] in a context whose ['content'] is what the
    original returned (or raises what the original raised). *)
Theorem decorated_get_html_two_way {W} (handle : forall c : call, W -> resp c * W)
    (h : heap) (cls : nat) (h' : heap) (cls' : nat) self args kwargs w :
  edxnotes h cls = Ok (h', cls') ->
  exists original,
    class_getattr h cls "get_html" = Some original /\
    class_getattr h' cls' "get_html" = Some (GetHtmlWrapper original) /\
    let is_studio :=
      truthy (getattr_default (system self) "is_author_mode" (PyBool false)) in
    let c := handle (GetCourse (descriptor_runtime_modulestore self)
                               (runtime_course_id self)) w in
    let f := handle (IsFeatureEnabled c.1) c.2 in
    let inner := run handle (apply original self args kwargs)
                     (if is_studio then c.2 else f.2) in
    let o := run handle (apply (GetHtmlWrapper original) self args kwargs) w in
    if is_studio || negb f.1
    then returned o = returned inner
    else wrapped o inner.
Proof.
  intros H. apply edxnotes_ok in H as (original & c & Hg & Hc & -> & ->).
  exists original. split; [done|]. split; [apply class_getattr_wrapper|].
  apply wrapper_two_way.
Qed.

Lemma decorated_get_html_two_way_witness :
  edxnotes sample_heap 5 = Ok (sample_decorated, 5%nat) /\
  exists original,
    class_getattr sample_heap 5 "get_html" = Some original /\
    class_getattr sample_decorated 5 "get_html" = Some (GetHtmlWrapper original) /\
    wrapped (run sample_environment
               (apply (GetHtmlWrapper original) sample_component [] ∅) tt)
            (run sample_environment (apply original sample_component [] ∅) tt).
Proof.
  assert (edxnotes sample_heap 5 = Ok (sample_decorated, 5%nat)) as H
    by (vm_compute; reflexivity).
  split; [exact H|].
  destruct (decorated_get_html_two_way sample_environment
              sample_heap 5 sample_decorated 5 sample_component [] ∅ tt H)
    as (original & Hg & Hg' & Hrun).
  exists original. split; [exact Hg|]. split; [exact Hg'|]. exact Hrun.
Defined.

(** C2.  For a component whose system has no [is_author_mode], the
    plain attribute look-up would fail, but the wrapper takes the
    default: it consults the feature flag, and what it returns is
    decided by that flag alone: the original's result when the feature
    is off, the rendered wrapper when it is on.  It raises only what the
    original raises. *)
Theorem missing_is_author_mode_defaults {W} (handle : forall c : call, W -> resp c * W)
    original self args kwargs w :
  system self !! "is_author_mode" = None ->
  let c := handle (GetCourse (descriptor_runtime_modulestore self)
                             (runtime_course_id self)) w in
  let f := handle (IsFeatureEnabled c.1) c.2 in
  let inner := run handle (apply original self args kwargs) f.2 in
  let o := run handle (apply (GetHtmlWrapper original) self args kwargs) w in
  getattr (system self) "is_author_mode" = None /\
  getattr_default (system self) "is_author_mode" (PyBool false) = PyBool false /\
  (exists rest,
     calls o = answered (GetCourse _ _) c.1
               :: answered (IsFeatureEnabled c.1) f.1 :: rest) /\
  (if f.1 then wrapped o inner else returned o = returned inner) /\
  (forall e, returned o = Exn e -> returned inner = Exn e).
Proof.
  intros Hnone c f inner o.
  assert (getattr_default (system self) "is_author_mode" (PyBool false) = PyBool false)
    as Hd by (unfold getattr_default; by rewrite Hnone).
  split; [exact Hnone|]. split; [exact Hd|].
  pose proof (wrapper_two_way handle original self args kwargs w) as H2.
  pose proof (wrapper_run handle original self args kwargs w) as H.
  cbv zeta in H, H2. rewrite Hd in H, H2. cbn [truthy orb] in H, H2.
  fold c f inner o in H, H2.
  split; [|split].
  - destruct (negb f.1).
    + rewrite H. cbn [calls app]. eauto.
    + destruct (returned inner).
      * destruct H as (post & context & rendered & _ & -> & _). cbn [app]. eauto.
      * rewrite H. cbn [calls app]. eauto.
  - by destruct f.1.
  - intros e He. destruct (negb f.1).
    + by rewrite <- H2.
    + unfold wrapped in H2. destruct (returned inner) as [content|e'].
      * destruct H2 as (? & ? & Hr & _). congruence.
      * congruence.
Qed.

Lemma missing_is_author_mode_defaults_witness :
  system sample_component !! "is_author_mode" = None /\
  wrapped (run sample_environment
             (apply (GetHtmlWrapper (Function 1)) sample_component [] ∅) tt)
          (run sample_environment (apply (Function 1) sample_component [] ∅) tt).
Proof.
  assert (system sample_component !! "is_author_mode" = None) as H by reflexivity.
  split; [exact H|].
  exact (proj1 (proj2 (proj2 (proj2
           (missing_is_author_mode_defaults sample_environment
              (Function 1) sample_component [] ∅ tt H))))).
Defined.

(** C9.  In any environment and whichever branch is taken, the calls
    of the wrapper are those of one run of the original, with the same
    [self], [args] and [kwargs], between calls that run no function; so
    when the original is a function, the trace of the wrapper has
    exactly one call of it, with exactly these arguments. *)
Theorem original_invoked_exactly_once {W} (handle : forall c : call, W -> resp c * W)
    self args kwargs w :
  (forall original, exists pre post w',
     calls (run handle (apply (GetHtmlWrapper original) self args kwargs) w)
     = pre ++ calls (run handle (apply original self args kwargs) w') ++ post /\
     Forall (fun ev => ~ is_invoke (called ev)) pre /\
     Forall (fun ev => ~ is_invoke (called ev)) post) /\
  (forall f,
     original_calls f
       (calls (run handle (apply (GetHtmlWrapper (Function f)) self args kwargs) w))
     = [(self, args, kwargs)]).
Proof.
  split.
  - intros original.
    destruct (wrapper_calls handle original self args kwargs w)
      as (pre & post & w' & Hc & Hpre & Hpost & _).
    by exists pre, post, w'.
  - intros f.
    destruct (wrapper_calls handle (Function f) self args kwargs w)
      as (pre & post & w' & Hc & Hpre & Hpost & _).
    cbv zeta in Hc. rewrite Hc, !original_calls_app, function_calls.
    by rewrite (original_calls_none f pre Hpre), (original_calls_none f post Hpost).
Qed.

End EdxNotesProperties.

(** ** [create_sample_course] *)

Module SampleCourseFacts.

Import SampleCourse.


(** The test case after [setUp]: [self.store] is the modulestore [s]
    and [self.user] a user with id [u]. *)
Definition ready (s : nat) (u : Z) (self : testcase) : Prop :=
  self !! "store" = Some (AStore s) /\ self !! "user" = Some (AUser u).


(** What creating a tree under [parent] looks like in a trace: the
    record's own block is created first, under [parent], with the
    record's category, identifier and fields; then come its sub-trees,
    in order, each created under the location of the block just
    returned. *)
Inductive sub_tree_trace (s : nat) (u : Z)
  : Location -> BlockInfo -> trace resp -> Prop :=
| created parent b (block : xblock) tr :
    forest_trace s u (location block) (sub_tree b) tr ->
    sub_tree_trace s u parent b
      (existT (CreateChild s u (version_agnostic parent)
                 (category b) (block_id b) (fields b)) block :: tr)
with forest_trace (s : nat) (u : Z)
  : Location -> list BlockInfo -> trace resp -> Prop :=
| forest_nil parent : forest_trace s u parent [] []
| forest_cons parent t ts tr trs :
    sub_tree_trace s u parent t tr ->
    forest_trace s u parent ts trs ->
    forest_trace s u parent (t :: ts) (tr ++ trs).









Scheme sub_tree_trace_mut := Induction for sub_tree_trace Sort Prop
  with forest_trace_mut := Induction for forest_trace Sort Prop.



Section AnyEnvironment.

Context {W : Type}.
Variable handle : forall c : call, W -> resp c * W.
Variables (s : nat) (u : Z).

Lemma run_from_finally {A} (p : prog resp A) (fin : prog resp unit) w sofar :
  run_from handle (finally p fin) w sofar
  = let o := run_from handle p w sofar in
    run_from handle (let* _ := fin in lift (returned o)) (final o) (calls o).
Proof.
  revert w sofar. induction p as [a|e|c k IH]; intros w sofar; cbn; try done.
  destruct (handle c w) as [x w']. apply IH.
Qed.

#[local] Abbreviation exec := (@Effect.run call resp W handle).





End AnyEnvironment.

(** *** Sample data *)

(** A modulestore without state: the course gets a versioned location
    of type [course], a child the location of its parent's course with
    the category and identifier asked for. *)
Definition sample_store (c : call) (w : unit) : resp c * unit :=
  match c return resp c * unit with
  | CreateCourse _ org course run _ _ =>
      (XBlock (MkLocation (MkCourseKey org course run (Some "draft-branch"))
                          "course" "course"), w)
  | CreateChild _ _ parent category block_id _ =>
      (XBlock (MkLocation (MkCourseKey (SampleCourse.org (course_key parent))
                                       (SampleCourse.course (course_key parent))
                                       (SampleCourse.run (course_key parent))
                                       (Some "draft-branch"))
                          category block_id), w)
  | BranchSettingEnter _ _ _ | BranchSettingExit _ | Publish _ _ _ => (tt, w)
  end.

(** The test case after [setUp]. *)
Definition sample_testcase : testcase :=
  {[ "store" := AStore 0; "user" := AUser 7 ]}.

(** A chapter with one sequential in it. *)
Definition sample_tree : list BlockInfo :=
  [MkBlockInfo "Overview" "chapter" (PyDict ∅)
     [MkBlockInfo "Toy_Videos" "sequential" (PyDict ∅) []]].




End SampleCourseFacts.

(* ===================================================================== *)
(** * Further properties of the lifecycle hooks *)
(* ===================================================================== *)

Module LifecycleExtras.

Import Lifecycle LifecycleFacts.

#[local] Abbreviation perform := (@Effect.perform call resp).

(** The names of the databases of a list of stores. *)
Definition database_names (stores : list store) : gset string :=
  list_to_set (omap (fun s => name <$> store_database s) stores).

(** Running a loop keeps what its body keeps. *)
Lemma for_each_final {W} (handle : forall c : call, W -> resp c * W) {A}
    (I : list A -> W -> Prop) (xs : list A) (body : A -> prog resp unit) :
  (forall x seen w, I seen w ->
     returned (Effect.run handle (body x) w) = Ok tt /\
     I (seen ++ [x]) (final (Effect.run handle (body x) w))) ->
  forall seen w, I seen w ->
    returned (Effect.run handle (for_each xs body) w) = Ok tt /\
    I (seen ++ xs) (final (Effect.run handle (for_each xs body) w)).
Proof.
  intros Hbody. induction xs as [|x xs IH]; intros seen w HI.
  - rewrite app_nil_r. by split.
  - cbn [for_each]. destruct (Hbody x seen w HI) as [Hr HI'].
    rewrite (returned_bind_ok _ _ _ _ _ Hr), (final_bind_ok _ _ _ _ _ Hr).
    destruct (IH (seen ++ [x]) _ HI') as [Hr' HI''].
    split; [done|]. by rewrite <- app_assoc in HI''.
Qed.

Lemma database_names_snoc stores s :
  database_names (stores ++ [s])
  = database_names stores ∪ match store_database s with
                            | Some db => {[ name db ]}
                            | None => ∅
                            end.
Proof.
  unfold database_names. rewrite omap_app, list_to_set_app_L. f_equal.
  cbn. destruct (store_database s); cbn; set_solver.
Qed.

(** X1.  In the reference world, [drop_mongo_collections] leaves the
    modulestore and the disk alone, empties the content store, and
    removes from the server exactly the databases of the stores of a
    store that is not XML; with an XML store no database is removed. *)
Theorem drop_mongo_collections_world (w : world) :
  final (Effect.run step drop_mongo_collections w)
  = World (the_store w) ∅
          (if is_xml (the_store w) then databases w
           else databases w ∖ database_names (modulestores (the_store w)))
          (removed w) (disk w).
Proof.
  unfold drop_mongo_collections.
  pose proof (returned_perform step Modulestore w) as H0.
  rewrite (final_bind_ok _ _ _ _ _ H0), final_perform. cbn [step fst snd].
  set (ms := the_store w).
  set (loop := if negb (is_xml ms) then _ else _).
  assert (returned (Effect.run step loop w) = Ok tt /\
          final (Effect.run step loop w)
          = World ms (contentstore w)
                  (if is_xml ms then databases w
                   else databases w ∖ database_names (modulestores ms))
                  (removed w) (disk w)) as [Hr Hf].
  { subst loop. destruct (is_xml ms); cbn [negb]; [by destruct w|].
    destruct (for_each_final step
                (fun seen w' => w' = World ms (contentstore w)
                                       (databases w ∖ database_names seen)
                                       (removed w) (disk w))
                (modulestores ms)
                (fun store =>
                   match store_database store with
                   | Some db =>
                       do* perform (DropDatabase (connection db) (name db)) in
                       perform (Disconnect (connection db))
                   | None => Ret tt
                   end)) with (@nil store) w as [Hr Hf].
    - intros s seen w' ->. rewrite database_names_snoc.
      destruct (store_database s) as [db|]; cbn.
      + split; [done|]. f_equal. set_solver.
      + split; [done|]. f_equal. set_solver.
    - destruct w. unfold database_names. cbn. f_equal. set_solver.
    - by split. }
  rewrite (final_bind_ok _ _ _ _ _ Hr), Hf.
  set (w2 := World ms _ _ _ _).
  pose proof (returned_perform step ContentstoreClear w2) as Hc.
  rewrite (final_bind_ok _ _ _ _ _ Hc), final_perform.
  destruct (has_close_connections ms); reflexivity.
Qed.

Lemma calls_bind_ok {W} (handle : forall c : call, W -> resp c * W) {A B}
    (p : prog resp A) (f : A -> prog resp B) w a :
  returned (Effect.run handle p w) = Ok a ->
  calls (Effect.run handle (bind p f) w)
  = calls (Effect.run handle p w)
      ++ calls (Effect.run handle (f a) (final (Effect.run handle p w))).
Proof. intros H. by rewrite (run_bind_ok _ _ _ _ _ H), run_from_calls. Qed.

(** The calls of a loop are those of its turns, one after the other. *)
Lemma for_each_turns {W} (handle : forall c : call, W -> resp c * W) {A}
    (shape : A -> trace resp -> Prop) (xs : list A) (body : A -> prog resp unit) :
  (forall x w, returned (Effect.run handle (body x) w) = Ok tt /\
               shape x (calls (Effect.run handle (body x) w))) ->
  forall w, returned (Effect.run handle (for_each xs body) w) = Ok tt /\
            exists turns,
              calls (Effect.run handle (for_each xs body) w) = List.concat turns /\
              Forall2 shape xs turns.
Proof.
  intros Hbody. induction xs as [|x xs IH]; intros w.
  - split; [done|]. exists []. split; [done|constructor].
  - cbn [for_each]. destruct (Hbody x w) as [Hr Hs].
    rewrite (returned_bind_ok _ _ _ _ _ Hr), (calls_bind_ok _ _ _ _ _ Hr).
    destruct (IH (final (Effect.run handle (body x) w))) as (Hr' & turns & Hc & Hf).
    split; [done|].
    exists (calls (Effect.run handle (body x) w) :: turns).
    split; [by rewrite Hc|by constructor].
Qed.

(** What one turn of the clean-up loop of [_post_teardown] may do for a
    store: close the connection of its database, if it has one; and, if
    its root lies under [/tmp/], ask whether that is a directory and,
    only when told so, remove it. *)
Definition cleanup_turn (s : store) (t : trace resp) : Prop :=
  exists isdir : bool,
    t = match store_database s with
        | Some db => [existT (Disconnect (connection db)) tt]
        | None => []
        end
        ++ match fs_root s with
           | Some p =>
               if String.prefix "/tmp/" p
               then existT (IsDir p) isdir
                      :: (if isdir then [existT (Rmtree p) tt] else [])
               else []
           | None => []
           end.

(** X2.  In any environment, after the flush [_post_teardown] clears
    the existing modulestores and the request cache, asks for the
    modulestore again and then, unless that is an XML store, takes one
    turn per store of it, in order: the connection of the store's
    database is closed, and the store's root is removed only if it lies
    under [/tmp/] and [os.path.isdir] has just said it is a directory.
    No other directory is ever removed.  The call to the superclass
    comes last. *)
Theorem post_teardown_removes_only_temporary_roots
    {W : Type} (handle : forall c : call, W -> resp c * W) (w : W) :
  exists (again : module_store) (turns : list (trace resp)),
    calls (Effect.run handle _post_teardown w)
    = calls (Effect.run handle drop_mongo_collections w)
        ++ [existT ClearExistingModulestores tt; existT ClearRequestCache tt;
            existT Modulestore again]
        ++ List.concat turns
        ++ [existT SuperPostTeardown tt] /\
    Forall2 cleanup_turn (if is_xml again then [] else modulestores again) turns.
Proof.
  unfold _post_teardown.
  destruct (drop_mongo_collections_run handle w) as [Hr _].
  rewrite (calls_bind_ok _ _ _ _ _ Hr).
  set (w1 := final (Effect.run handle drop_mongo_collections w)).
  pose proof (returned_perform handle ClearExistingModulestores w1) as H1.
  rewrite (calls_bind_ok _ _ _ _ _ H1), (run_perform handle ClearExistingModulestores). cbn [calls final].
  destruct (handle ClearExistingModulestores w1) as [[] w2]. cbn [fst snd].
  pose proof (returned_perform handle ClearRequestCache w2) as H2.
  rewrite (calls_bind_ok _ _ _ _ _ H2), (run_perform handle ClearRequestCache). cbn [calls final].
  destruct (handle ClearRequestCache w2) as [[] w3]. cbn [fst snd].
  pose proof (returned_perform handle Modulestore w3) as H3.
  rewrite (calls_bind_ok _ _ _ _ _ H3), (run_perform handle Modulestore). cbn [calls final].
  destruct (handle Modulestore w3) as [ms w4]. cbn [fst snd].
  set (loop := if negb (is_xml ms) then _ else _).
  assert (returned (Effect.run handle loop w4) = Ok tt /\
          exists turns, calls (Effect.run handle loop w4) = List.concat turns /\
                        Forall2 cleanup_turn (if is_xml ms then [] else modulestores ms) turns)
    as (Hl & turns & Hc & Hturns).
  { subst loop. destruct (is_xml ms); cbn [negb].
    - split; [done|]. exists []. split; [done|constructor].
    - apply for_each_turns. intros s w'. unfold cleanup_turn, Effect.run.
      destruct (store_database s) as [db|], (fs_root s) as [root|]; cbn;
        repeat match goal with
          | |- context [handle ?c ?w] =>
              let x := fresh "x" in let w' := fresh "w" in
              destruct (handle c w) as [x w']; cbn in *;
              try destruct x; cbn
          | |- context [String.prefix ?a ?b] => destruct (String.prefix a b); cbn
          end;
        (split; [done|]);
        first [by exists true | by exists false]. }
  rewrite (calls_bind_ok _ _ _ _ _ Hl), Hc, (run_perform handle SuperPostTeardown). cbn [calls].
  destruct (handle SuperPostTeardown _) as [[] w5]. cbn [fst].
  exists ms, turns. split; [|done].
  by rewrite <- ?app_assoc.
Qed.

(** One turn of the clean-up loop on the paths removed so far: the
    root of the store joins them if it lies under [/tmp/] and
    [os.path.isdir], asked at that moment, says it is a directory. *)
Definition removal (isdir : list string -> string -> bool)
    (sofar : list string) (s : store) : list string :=
  match fs_root s with
  | Some p => if String.prefix "/tmp/" p
              then if isdir sofar p then p :: sofar else sofar
              else sofar
  | None => sofar
  end.

(** The paths handed to [rmtree] once the loop is through, latest
    first. *)
Definition removals (isdir : list string -> string -> bool)
    (stores : list store) (sofar : list string) : list string :=
  foldl (removal isdir) sofar stores.

(** A path one of the stores has as its root, lying under [/tmp/]. *)
Definition temporary_root (stores : list store) (p : string) : Prop :=
  String.prefix "/tmp/" p = true /\
  exists s, s ∈ stores /\ fs_root s = Some p.

Lemma removals_fresh isdir stores sofar :
  exists fresh,
    removals isdir stores sofar = fresh ++ sofar /\
    Forall (temporary_root stores) fresh.
Proof.
  unfold removals. revert sofar.
  induction stores as [|s stores IH] using rev_ind; intros sofar.
  - by exists [].
  - rewrite foldl_app. cbn [foldl].
    destruct (IH sofar) as (fresh & -> & Hfresh).
    assert (Forall (temporary_root (stores ++ [s])) fresh) as Hfresh'.
    { eapply Forall_impl; [exact Hfresh|].
      intros p (Hp & s' & Hin & Hs'). split; [done|]. exists s'. set_solver. }
    unfold removal at 1.
    destruct (fs_root s) as [p|] eqn:Hroot; [|by exists fresh].
    destruct (String.prefix "/tmp/" p) eqn:Hp; [|by exists fresh].
    destruct (isdir (fresh ++ sofar) p); [|by exists fresh].
    exists (p :: fresh). split; [done|]. constructor; [|done].
    split; [done|]. exists s. set_solver.
Qed.

(** X3.  In the reference world, where the disk is left open and only
    the paths handed to [rmtree] are kept, [_post_teardown] leaves
    behind an empty content store and no database of a store that is
    not XML, and it hands to [rmtree], in the order of the stores,
    exactly the roots under [/tmp/] of which [os.path.isdir] said, when
    asked, that they are directories.  So every path it adds to those
    removed is the root of one of the stores and lies under [/tmp/];
    with an XML store it adds none. *)
Theorem post_teardown_world (w : world) :
  let ms := the_store w in
  let after := final (Effect.run step _post_teardown w) in
  after
  = World ms ∅
          (if is_xml ms then databases w
           else databases w ∖ database_names (modulestores ms))
          (if is_xml ms then removed w
           else removals (disk w) (modulestores ms) (removed w))
          (disk w) /\
  exists fresh,
    removed after = fresh ++ removed w /\
    Forall (temporary_root (modulestores ms)) fresh /\
    (is_xml ms = true -> fresh = []).
Proof.
  intros ms after.
  assert (after
          = World ms ∅
              (if is_xml ms then databases w
               else databases w ∖ database_names (modulestores ms))
              (if is_xml ms then removed w
               else removals (disk w) (modulestores ms) (removed w))
              (disk w)) as Hafter.
  { subst after. unfold _post_teardown.
    destruct (drop_mongo_collections_run step w) as [Hr _].
    rewrite (final_bind_ok _ _ _ _ _ Hr), drop_mongo_collections_world. fold ms.
    set (dbs := if is_xml ms then _ else _).
    pose (w1 := World ms ∅ dbs (removed w) (disk w)).
    change (World ms ∅ dbs (removed w) (disk w)) with w1.
    pose proof (returned_perform step ClearExistingModulestores w1) as H1.
    rewrite (final_bind_ok _ _ _ _ _ H1), (final_perform step ClearExistingModulestores).
    change (step ClearExistingModulestores w1).2 with w1.
    pose proof (returned_perform step ClearRequestCache w1) as H2.
    rewrite (final_bind_ok _ _ _ _ _ H2), (final_perform step ClearRequestCache).
    change (step ClearRequestCache w1).2 with w1.
    pose proof (returned_perform step Modulestore w1) as H3.
    rewrite (final_bind_ok _ _ _ _ _ H3), (final_perform step Modulestore).
    change (step Modulestore w1).1 with ms. change (step Modulestore w1).2 with w1.
    set (loop := if negb (is_xml ms) then _ else _).
    assert (returned (Effect.run step loop w1) = Ok tt /\
            final (Effect.run step loop w1)
            = World ms ∅ dbs
                    (if is_xml ms then removed w
                     else removals (disk w) (modulestores ms) (removed w))
                    (disk w))
      as [Hl Hf].
    { subst loop. destruct (is_xml ms); cbn [negb]; [done|].
      destruct (for_each_final step
                  (fun seen w' => w' = World ms ∅ dbs
                                         (removals (disk w) seen (removed w)) (disk w))
                  (modulestores ms)
                  (fun store =>
                     do* match store_database store with
                         | Some db => perform (Disconnect (connection db))
                         | None => Ret tt
                         end in
                     match fs_root store with
                     | Some fs_root =>
                         if String.prefix "/tmp/" fs_root then
                           let* isdir := perform (IsDir fs_root) in
                           if isdir : bool then perform (Rmtree fs_root) else Ret tt
                         else Ret tt
                     | None => Ret tt
                     end)) with (@nil store) w1 as [Hr' Hf'].
      - intros s seen w' ->. unfold removals. rewrite foldl_app. cbn [foldl].
        fold (removals (disk w) seen (removed w)).
        unfold removal, Effect.run.
        destruct (store_database s) as [db|], (fs_root s) as [root|]; cbn;
          try destruct (String.prefix "/tmp/" root); cbn;
          try destruct (disk w (removals (disk w) seen (removed w)) root); cbn;
          done.
      - done.
      - by split. }
    rewrite (final_bind_ok _ _ _ _ _ Hl), Hf.
    by rewrite (final_perform step SuperPostTeardown). }
  split; [exact Hafter|].
  rewrite Hafter. cbn [removed].
  destruct (is_xml ms).
  - exists []. by repeat split.
  - destruct (removals_fresh (disk w) (modulestores ms) (removed w))
      as (fresh & Hfresh & Hall).
    exists fresh. by repeat split.
Qed.

(** X4.  In the reference world flushing is idempotent: a second
    [drop_mongo_collections] right after a first changes nothing, so the
    flush of [_post_teardown] and that of the next [_pre_setup] do not
    interfere. *)
Theorem drop_mongo_collections_idempotent (w : world) :
  let once := final (Effect.run step drop_mongo_collections w) in
  final (Effect.run step drop_mongo_collections once) = once.
Proof.
  cbv zeta. rewrite !drop_mongo_collections_world. cbn [the_store databases removed disk].
  f_equal. destruct (is_xml (the_store w)); [done|]. set_solver.
Qed.

End LifecycleExtras.

(* ===================================================================== *)
(** * Further properties of the configuration assembly *)
(* ===================================================================== *)

Module ConfigExtras.

Import Config ConfigFacts.

(** The sixteen characters [UUID.hex] is made of. *)
Definition is_hex_digit (a : ascii) : Prop :=
  a ∈ list_ascii_of_string "0123456789abcdef".

Fixpoint all_chars (P : ascii -> Prop) (s : string) : Prop :=
  match s with
  | EmptyString => True
  | String a s' => P a /\ all_chars P s'
  end.

Lemma hex_digit_is_hex d : is_hex_digit (hex_digit d).
Proof.
  unfold is_hex_digit, hex_digit.
  destruct d as [|p]; [cbn; set_solver|].
  do 4 (try destruct p as [p|p|]); cbn; set_solver.
Qed.

Lemma hex_pad_length width v acc :
  String.length (hex_pad width v acc) = (width + String.length acc)%nat.
Proof.
  revert v acc. induction width as [|n IH]; intros v acc; [done|].
  cbn [hex_pad]. rewrite IH. cbn. lia.
Qed.

Lemma hex_pad_chars width v acc :
  all_chars is_hex_digit acc -> all_chars is_hex_digit (hex_pad width v acc).
Proof.
  revert v acc. induction width as [|n IH]; intros v acc Hacc; [done|].
  cbn [hex_pad]. apply IH. split; [apply hex_digit_is_hex|done].
Qed.

Lemma substring_0_length n s :
  (n <= String.length s)%nat -> String.length (substring 0 n s) = n.
Proof.
  revert s. induction n as [|n IH]; intros s Hn.
  - by destruct s.
  - destruct s as [|a s]; cbn in *; [lia|]. rewrite IH; lia.
Qed.

Lemma substring_0_chars P n s :
  all_chars P s -> all_chars P (substring 0 n s).
Proof.
  revert s. induction n as [|n IH]; intros s Hs.
  - by destruct s.
  - destruct s as [|a s]; cbn in *; [done|]. split; [tauto|]. apply IH. tauto.
Qed.

(** X5.  Whatever uuid is drawn, the collection name is
    ['modulestore'] followed by exactly five lower-case hex digits:
    sixteen characters in all. *)
Theorem collection_name_shape (u : N) :
  exists suffix,
    collection_name u = "modulestore" +:+ suffix /\
    String.length suffix = 5%nat /\
    all_chars is_hex_digit suffix /\
    String.length (collection_name u) = 16%nat.
Proof.
  exists (substring 0 5 (hex u)).
  assert (String.length (substring 0 5 (hex u)) = 5%nat) as Hlen.
  { apply substring_0_length. unfold hex. rewrite hex_pad_length. cbn. lia. }
  split; [done|]. split; [done|]. split.
  - apply substring_0_chars. unfold hex. by apply hex_pad_chars.
  - unfold collection_name. generalize dependent (substring 0 5 (hex u)).
    intros s Hs. cbv [String.append]. cbn [String.length]. by rewrite Hs.
Qed.

Section WithMongo.

Variable MONGO_HOST : string.
Variable MONGO_PORT_NUM : Z.

#[local] Abbreviation draft := (draft_mongo_store_config MONGO_HOST MONGO_PORT_NUM).
#[local] Abbreviation split := (split_mongo_store_config MONGO_HOST MONGO_PORT_NUM).
#[local] Abbreviation mixed := (mixed_store_config MONGO_HOST MONGO_PORT_NUM).

(** The collection named in the [i]-th profile of the [stores] list. *)
Definition store_collection (cfg : pyval) (i : nat) : option pyval :=
  l ← stores_of cfg; s ← l !! i; getpath s ["DOC_STORE_CONFIG"; "collection"].

(** X6.  [mixed_store_config] draws exactly two uuids, whether or not
    the XML store is included: the first names the collection of the
    draft-mongo profile, the second that of the split-mongo profile, and
    the third uuid of the source is the next one to be drawn.  The two
    collections of one mixed configuration therefore coincide exactly
    when the first five hex digits of two successive uuids do; nothing
    makes them distinct. *)
Theorem mixed_store_config_draws_two data_dir mappings include_xml (e : entropy) :
  exists cfg e',
    mixed data_dir mappings include_xml e = Some (cfg, e') /\
    e' = (fun n => e (2 + n)%nat) /\
    store_collection cfg 0 = Some (PyStr (collection_name (uuid4_int (e 0%nat)))) /\
    store_collection cfg 1 = Some (PyStr (collection_name (uuid4_int (e 1%nat)))) /\
    (store_collection cfg 0 = store_collection cfg 1
     <-> substring 0 5 (hex (uuid4_int (e 0%nat)))
         = substring 0 5 (hex (uuid4_int (e 1%nat)))).
Proof.
  eexists _, _. split; [apply mixed_unfold|].
  split; [reflexivity|].
  unfold store_collection. rewrite stores_of_mixed. cbn [mbind option_bind].
  change (uuid4 e).1 with (uuid4_int (e 0%nat)).
  change (uuid4 (uuid4 e).2).1 with (uuid4_int (e 1%nat)).
  generalize (collection_name_inj (uuid4_int (e 0%nat)) (uuid4_int (e 1%nat))).
  generalize (collection_name (uuid4_int (e 0%nat))), (collection_name (uuid4_int (e 1%nat))).
  intros c0 c1 Hinj.
  cbn [app lookup list_lookup mbind option_bind].
  rewrite !(proj2 (proj2 (mongo_profile_fields _ _ _ _ _ _))).
  split; [done|]. split; [done|].
  rewrite <- Hinj. split; [by intros ?%Some_PyStr_inj|by intros ->].
Qed.

(** X7.  [xml_store_config] keeps its two arguments apart and intact:
    the data directory and the course directories can be read back from
    the configuration, and two configurations are equal only if they
    were built from the same arguments. *)
Theorem xml_store_config_round_trip data_dir course_dirs data_dir' course_dirs' :
  getpath (xml_store_config data_dir course_dirs) ["default"; "OPTIONS"; "data_dir"]
    = Some (PyStr data_dir) /\
  getpath (xml_store_config data_dir course_dirs) ["default"; "OPTIONS"; "course_dirs"]
    = Some course_dirs /\
  (xml_store_config data_dir course_dirs = xml_store_config data_dir' course_dirs'
   <-> data_dir = data_dir' /\ course_dirs = course_dirs').
Proof.
  assert (forall d c,
            getpath (xml_store_config d c) ["default"; "OPTIONS"; "data_dir"]
              = Some (PyStr d) /\
            getpath (xml_store_config d c) ["default"; "OPTIONS"; "course_dirs"]
              = Some c) as Hget by (intros d c; by vm_compute).
  split; [apply Hget|]. split; [apply Hget|].
  split; [|by intros [-> ->]].
  intros H. split.
  - apply (f_equal (fun v => getpath v ["default"; "OPTIONS"; "data_dir"])) in H.
    rewrite !(proj1 (Hget _ _)) in H. by apply Some_PyStr_inj.
  - apply (f_equal (fun v => getpath v ["default"; "OPTIONS"; "course_dirs"])) in H.
    rewrite !(proj2 (Hget _ _)) in H. by apply Some_inj'.
Qed.

End WithMongo.

End ConfigExtras.

(* ===================================================================== *)
(** * Further properties of the [edxnotes] decorator *)
(* ===================================================================== *)

Module EdxNotesExtras.

Import EdxNotes EdxNotesFacts EdxNotesProperties.

(** X8.  In author mode the wrapper looks the course up and then does
    just what the original does: the feature flag is not consulted,
    nothing is rendered, no token is requested, and result and world are
    the original's.  With the feature off the same holds after the one
    question whether the feature is enabled. *)
Theorem skipping_is_transparent
    {W : Type} (handle : forall c : call, W -> resp c * W)
    original self args kwargs w :
  let is_studio :=
    truthy (getattr_default (system self) "is_author_mode" (PyBool false)) in
  let c := handle (GetCourse (descriptor_runtime_modulestore self)
                             (runtime_course_id self)) w in
  let f := handle (IsFeatureEnabled c.1) c.2 in
  let o := Effect.run handle (apply (GetHtmlWrapper original) self args kwargs) w in
  if is_studio then
    let inner := Effect.run handle (apply original self args kwargs) c.2 in
    o = Outcome (returned inner) (final inner)
                (answered (GetCourse _ _) c.1 :: calls inner)
  else
    let inner := Effect.run handle (apply original self args kwargs) f.2 in
    if f.1 then
      match returned inner with
      | Ok _ => exists context rendered,
                  last (calls o)
                  = Some (answered (RenderToString "edxnotes_wrapper.html" context) rendered)
      | Exn e => returned o = Exn e
      end
    else
      o = Outcome (returned inner) (final inner)
                  (answered (GetCourse _ _) c.1
                   :: answered (IsFeatureEnabled c.1) false :: calls inner).
Proof.
  pose proof (wrapper_run handle original self args kwargs w) as H.
  cbv zeta in *.
  destruct (truthy _); [exact H|].
  destruct (handle (IsFeatureEnabled _) _) as [[|] w2] eqn:Hf; cbn [fst snd negb] in *.
  - destruct (returned _) as [content|e].
    + destruct H as (post & context & rendered & _ & Hcalls & _).
      exists context, rendered. by rewrite Hcalls, !app_assoc, last_snoc.
    + by rewrite H.
  - exact H.
Qed.

Lemma context_dom (a b c d e : pyval) :
  dom ({[ "content" := a; "uid" := b; "edxnotes_visibility_url" := c;
          "edxnotes_visibility" := d; "params" := e ]} : gmap string pyval)
  = {[ "content"; "uid"; "edxnotes_visibility_url"; "edxnotes_visibility"; "params" ]}.
Proof. rewrite !dom_insert_L, dom_singleton_L. set_solver. Qed.

Lemma params_dom (a b c d e : pyval) :
  dom ({[ "usageId" := a; "courseId" := b; "token" := c;
          "endpoint" := d; "debug" := e ]} : gmap string pyval)
  = {[ "usageId"; "courseId"; "token"; "endpoint"; "debug" ]}.
Proof. rewrite !dom_insert_L, dom_singleton_L. set_solver. Qed.

(** X9.  When the wrapper renders (not in author mode, feature on,
    the original returned [content]), the calls after the original's
    are, in this order: a fresh uid, the URL of the visibility view for
    the id of the course that was looked up, the JSON of the course's
    visibility setting, the encoded usage id and course id, the real user
    behind the anonymous student id, a token for that very user, the
    endpoint, the debug setting, and the rendering of
    [edxnotes_wrapper.html].  The context rendered has exactly the keys
    [content], [uid], [edxnotes_visibility_url], [edxnotes_visibility] and
    [params], bound to these answers, and [params] exactly the keys
    [usageId], [courseId], [token], [endpoint] and [debug]. *)
Theorem render_context_contract
    {W : Type} (handle : forall c : call, W -> resp c * W)
    original self args kwargs w content :
  let c := handle (GetCourse (descriptor_runtime_modulestore self)
                             (runtime_course_id self)) w in
  let f := handle (IsFeatureEnabled c.1) c.2 in
  let inner := Effect.run handle (apply original self args kwargs) f.2 in
  let o := Effect.run handle (apply (GetHtmlWrapper original) self args kwargs) w in
  truthy (getattr_default (system self) "is_author_mode" (PyBool false)) = false ->
  f.1 = true ->
  returned inner = Ok content ->
  exists uid url vis usage cid user token endpoint debug rendered context params,
    returned o = Ok rendered /\
    calls o
    = [answered (GetCourse _ _) c.1; answered (IsFeatureEnabled c.1) true]
      ++ calls inner
      ++ [answered GenerateUid uid;
          answered (Reverse "edxnotes_visibility" {[ "course_id" := id c.1 ]}) url;
          answered (JsonDumps (edxnotes_visibility c.1)) vis;
          answered (UnicodeEncodeUtf8 (scope_ids_usage_id self)) usage;
          answered (UnicodeEncodeUtf8 (runtime_course_id self)) cid;
          answered (GetRealUser (runtime_anonymous_student_id self)) user;
          answered (GetToken user) token;
          answered GetEndpoint endpoint;
          answered SettingsDEBUG debug;
          answered (RenderToString "edxnotes_wrapper.html" context) rendered] /\
    dom context = {[ "content"; "uid"; "edxnotes_visibility_url";
                     "edxnotes_visibility"; "params" ]} /\
    context !! "content" = Some content /\
    context !! "uid" = Some uid /\
    context !! "edxnotes_visibility_url" = Some url /\
    context !! "edxnotes_visibility" = Some vis /\
    context !! "params" = Some (PyDict params) /\
    dom params = {[ "usageId"; "courseId"; "token"; "endpoint"; "debug" ]} /\
    params !! "usageId" = Some usage /\
    params !! "courseId" = Some cid /\
    params !! "token" = Some token /\
    params !! "endpoint" = Some endpoint /\
    params !! "debug" = Some debug.
Proof.
  intros c f inner o Hstudio Hf Hinner. subst o.
  cbn [apply]. rewrite Hstudio.
  rewrite run_bind. unfold and_then. rewrite run_perform.
  cbn [returned final calls]. fold c.
  rewrite run_from_bind.
  cbn [bind perform run_from]. fold f.
  destruct f as [en w2] eqn:Ef. cbn [fst snd] in *. subst en.
  cbn [negb and_then returned final calls run_from app].
  rewrite run_from_bind, run_from_calls.
  unfold and_then. cbn [returned final calls]. fold inner. rewrite Hinner.
  cbn [bind perform run_from].
  destruct (handle GenerateUid _) as [uid wa].
  destruct (handle (Reverse _ _) _) as [url wb].
  destruct (handle (JsonDumps _) _) as [vis wc].
  destruct (handle (UnicodeEncodeUtf8 (scope_ids_usage_id self)) _) as [usage wd].
  destruct (handle (UnicodeEncodeUtf8 (runtime_course_id self)) _) as [cid we].
  destruct (handle (GetRealUser _) _) as [user wf].
  destruct (handle (GetToken _) _) as [token wg].
  destruct (handle GetEndpoint _) as [endpoint wh].
  destruct (handle SettingsDEBUG _) as [debug wi].
  destruct (handle (RenderToString _ _) _) as [rendered wj].
  cbn [returned calls]. rewrite <- !app_assoc. cbn [app].
  exists uid, url, vis, usage, cid, user, token, endpoint, debug, rendered.
  eexists _, _.
  split; [reflexivity|]. split; [reflexivity|].
  split; [exact (context_dom _ _ _ _ _)|].
  split; [by vm_compute|]. split; [by vm_compute|].
  split; [by vm_compute|]. split; [by vm_compute|].
  split; [by vm_compute|].
  split; [exact (params_dom _ _ _ _ _)|].
  split; [by vm_compute|]. split; [by vm_compute|].
  split; [by vm_compute|]. split; by vm_compute.
Qed.

Lemma render_context_contract_witness :
  exists rendered context,
    returned (Effect.run sample_environment
                (apply (GetHtmlWrapper (Function 1)) sample_component [] ∅) tt)
      = Ok rendered /\
    last (calls (Effect.run sample_environment
                   (apply (GetHtmlWrapper (Function 1)) sample_component [] ∅) tt))
      = Some (answered (RenderToString "edxnotes_wrapper.html" context) rendered) /\
    context !! "content" = Some (PyStr "<p>toy</p>").
Proof.
  destruct (render_context_contract sample_environment (Function 1) sample_component
              [] ∅ tt (PyStr "<p>toy</p>") eq_refl eq_refl eq_refl)
    as (uid & url & vis & usage & cid & user & token & endpoint & debug & rendered
        & context & params & Hret & Hcalls & _ & Hcontent & _).
  exists rendered, context. split; [exact Hret|]. split; [|exact Hcontent].
  rewrite Hcalls. reflexivity.
Defined.

(** A base class at address 1 that defines [get_html], and a subclass
    at address 2 that only inherits it. *)
Definition sample_hierarchy : heap :=
  {[ 1%nat := Class {[ "get_html" := Function 1 ]} [];
     2%nat := Class {[ "display_name" := Data (PyStr "Sub") ]} [1%nat] ]}.

(** X10.  Decorating a class that only inherits [get_html] from its
    first base wraps the base's function but binds the wrapper on the
    decorated class itself: the base still has, and resolves to, its own
    undecorated [get_html]. *)
Theorem edxnotes_on_subclass_spares_base (h : heap) cls c b rest cb v :
  h !! cls = Some c -> dict c !! "get_html" = None ->
  mro_tail c = b :: rest ->
  h !! b = Some cb -> dict cb !! "get_html" = Some v ->
  exists h',
    edxnotes h cls = Ok (h', cls) /\
    class_getattr h' cls "get_html" = Some (GetHtmlWrapper v) /\
    h' !! b = Some cb /\
    class_getattr h' b "get_html" = Some v.
Proof.
  intros Hc Hown Hmro Hb Hbown.
  assert (b <> cls) as Hne by (intros ->; congruence).
  assert (class_getattr h cls "get_html" = Some v) as Hg.
  { unfold class_getattr. rewrite Hc. cbn. rewrite Hown, Hmro. cbn.
    rewrite Hb. cbn. rewrite Hbown. cbn. done. }
  eexists. unfold edxnotes. rewrite Hg. unfold class_setattr. rewrite Hc.
  split; [reflexivity|].
  split; [apply class_getattr_wrapper|].
  split; [by rewrite lookup_insert_ne|].
  unfold class_getattr. rewrite lookup_insert_ne by done. rewrite Hb. cbn.
  by rewrite Hbown.
Qed.

Lemma edxnotes_on_subclass_spares_base_witness :
  exists h',
    edxnotes sample_hierarchy 2 = Ok (h', 2%nat) /\
    class_getattr h' 2 "get_html" = Some (GetHtmlWrapper (Function 1)) /\
    class_getattr h' 1 "get_html" = Some (Function 1).
Proof.
  destruct (edxnotes_on_subclass_spares_base sample_hierarchy 2
              (Class {[ "display_name" := Data (PyStr "Sub") ]} [1%nat]) 1 []
              (Class {[ "get_html" := Function 1 ]} []) (Function 1))
    as (h' & He & Hw & _ & Hb); try (vm_compute; reflexivity).
  exists h'. split; [exact He|]. split; [exact Hw|exact Hb].
Defined.

(** X11.  Decorating a class twice nests the wrappers: [get_html] is
    then the wrapper around the wrapper around the original, and a
    function original is still run exactly once, with the arguments the outer wrapper received. *)
Theorem decorating_twice
    {W : Type} (handle : forall c : call, W -> resp c * W)
    (h h1 h2 : heap) (cls cls1 cls2 : nat) f self args kwargs w :
  class_getattr h cls "get_html" = Some (Function f) ->
  edxnotes h cls = Ok (h1, cls1) ->
  edxnotes h1 cls1 = Ok (h2, cls2) ->
  cls2 = cls /\
  class_getattr h2 cls "get_html"
    = Some (GetHtmlWrapper (GetHtmlWrapper (Function f))) /\
  original_calls f
    (calls (Effect.run handle
              (apply (GetHtmlWrapper (GetHtmlWrapper (Function f))) self args kwargs) w))
    = [(self, args, kwargs)].
Proof.
  intros Hg H1 H2.
  apply edxnotes_ok in H1 as (o1 & c1 & Hg1 & Hc1 & -> & ->).
  rewrite Hg in Hg1. injection Hg1 as <-.
  apply edxnotes_ok in H2 as (o2 & c2 & Hg2 & Hc2 & -> & ->).
  rewrite class_getattr_wrapper in Hg2. injection Hg2 as <-.
  split; [done|]. split; [apply class_getattr_wrapper|].
  destruct (wrapper_calls handle (GetHtmlWrapper (Function f)) self args kwargs w)
    as (pre & post & w' & Hc & Hpre & Hpost & _).
  destruct (wrapper_calls handle (Function f) self args kwargs w')
    as (pre' & post' & w'' & Hc' & Hpre' & Hpost' & _).
  cbv zeta in Hc, Hc'. rewrite Hc, Hc', !original_calls_app, function_calls.
  by rewrite (original_calls_none f pre Hpre), (original_calls_none f post Hpost),
    (original_calls_none f pre' Hpre'), (original_calls_none f post' Hpost').
Qed.

Lemma decorating_twice_witness :
  exists h1 h2,
    edxnotes sample_heap 5 = Ok (h1, 5%nat) /\
    edxnotes h1 5 = Ok (h2, 5%nat) /\
    class_getattr h2 5 "get_html"
      = Some (GetHtmlWrapper (GetHtmlWrapper (Function 1))) /\
    original_calls 1
      (calls (Effect.run sample_environment
                (apply (GetHtmlWrapper (GetHtmlWrapper (Function 1)))
                       sample_component [] ∅) tt))
      = [(sample_component, [], ∅)].
Proof.
  eexists _, _.
  assert (class_getattr sample_heap 5 "get_html" = Some (Function 1)) as Hg
    by (vm_compute; reflexivity).
  assert (edxnotes sample_heap 5 = Ok (sample_decorated, 5%nat)) as H1
    by (vm_compute; reflexivity).
  split; [exact H1|].
  assert (edxnotes sample_decorated 5
          = Ok ({[ 5%nat := Class {[ "get_html" := GetHtmlWrapper (GetHtmlWrapper (Function 1));
                                     "display_name" := Data (PyStr "Text") ]} [] ]}, 5%nat))
    as H2 by (vm_compute; reflexivity).
  split; [exact H2|].
  exact (proj2 (decorating_twice sample_environment _ _ _ 5 5 5 1
                  sample_component [] ∅ tt Hg H1 H2)).
Defined.

End EdxNotesExtras.

(* ===================================================================== *)
(** * Further properties of [create_sample_course] *)
(* ===================================================================== *)

Module SampleCourseExtras.

Import SampleCourse SampleCourseFacts.

(** X12.  Whatever happens inside, the branch setting that
    [create_sample_course] enters is left again: on a test case with a
    modulestore, in any environment and for any tree, the first call
    enters the draft-preferred branch setting and the last one leaves it,
    also when the method raises. *)
Theorem branch_setting_always_left
    {W : Type} (handle : forall c : call, W -> resp c * W) (s : nat)
    default_tree self org course run trees course_fields w :
  self !! "store" = Some (AStore s) ->
  exists inside,
    calls (Effect.run handle
             (create_sample_course default_tree self org course run trees course_fields) w)
    = existT (BranchSettingEnter s draft_preferred None) tt
        :: inside ++ [existT (BranchSettingExit s) tt].
Proof.
  intros Hs. unfold create_sample_course, self_store at 1. rewrite Hs. cbn [require bind].
  rewrite run_bind. unfold and_then.
  rewrite (run_perform handle (BranchSettingEnter s draft_preferred None)).
  cbn [returned final calls].
  destruct (handle (BranchSettingEnter s draft_preferred None) w) as [[] w0].
  cbn [fst snd].
  rewrite run_from_bind, run_from_finally. cbv zeta.
  match goal with
  | |- context [run_from handle ?b w0 ?sf] => set (body := b)
  end.
  rewrite !(run_from_calls handle body). cbn [returned final calls].
  exists (calls (Effect.run handle body w0)).
  cbn [bind perform run_from].
  destruct (handle (BranchSettingExit s) _) as [[] w1].
  destruct (returned (Effect.run handle body w0)) as [self1|e];
    cbn [lift run_from and_then returned final calls].
  - unfold self_course_loc.
    destruct (self1 !! "course_loc") as [[| |l]|]; cbn [require bind run_from calls];
      by rewrite <- app_assoc.
  - by rewrite <- app_assoc.
Qed.

Lemma branch_setting_always_left_witness :
  exists inside,
    calls (Effect.run sample_store
             (create_sample_course [] sample_testcase "edX" "toy" "2012_Fall"
                (Some sample_tree) PyNone) tt)
    = existT (BranchSettingEnter 0 draft_preferred None) tt
        :: inside ++ [existT (BranchSettingExit 0) tt].
Proof.
  apply (branch_setting_always_left sample_store 0 [] sample_testcase
           "edX" "toy" "2012_Fall" (Some sample_tree) PyNone tt).
  reflexivity.
Defined.

(** X13.  On a test case without a user (as [setUp(create_user=False)]
    leaves it), [create_sample_course] raises the [AttributeError] of
    [self.user] before anything is created: the only calls are entering
    and leaving the branch setting. *)
Theorem create_sample_course_without_user
    {W : Type} (handle : forall c : call, W -> resp c * W) (s : nat)
    default_tree self org course run trees course_fields w :
  self !! "store" = Some (AStore s) ->
  self !! "user" = None ->
  let o := Effect.run handle
             (create_sample_course default_tree self org course run trees course_fields) w in
  returned o = Exn (AttributeError "user") /\
  made o = [BranchSettingEnter s draft_preferred None; BranchSettingExit s].
Proof.
  intros Hs Hu o. subst o.
  unfold create_sample_course, self_store, self_user_id. rewrite Hs, Hu.
  cbn [require bind finally].
  unfold Effect.run, made. cbn [perform bind run_from].
  destruct (handle (BranchSettingEnter s draft_preferred None) w) as [[] w0].
  cbn [run_from].
  destruct (handle (BranchSettingExit s) w0) as [[] w1].
  by cbn.
Qed.

Lemma create_sample_course_without_user_witness :
  returned (Effect.run sample_store
              (create_sample_course [] {[ "store" := AStore 0 ]} "edX" "toy" "2012_Fall"
                 (Some sample_tree) PyNone) tt)
  = Exn (AttributeError "user").
Proof.
  apply (create_sample_course_without_user sample_store 0 [] {[ "store" := AStore 0 ]}
           "edX" "toy" "2012_Fall" (Some sample_tree) PyNone tt); reflexivity.
Defined.









Section AnyEnvironment.

Context {W : Type}.
Variable handle : forall c : call, W -> resp c * W.
Variables (s : nat) (u : Z).

#[local] Abbreviation exec := (@Effect.run call resp W handle).




End AnyEnvironment.




End SampleCourseExtras.

(** ** Properties of [setUp] and [create_non_staff_user] *)

Module TestUsersFacts.

Import SampleCourse SampleCourseFacts TestUsers.


Section AnyEnvironment.

Context {W : Type}.
Variable handle : forall c : call, W -> resp c * W.


End AnyEnvironment.

(** X15.  [setUp] calls the superclass and then [modulestore()], and
    stores on the test case the very store that call answered; it
    always returns the password ['foo'].  Unless the keyword
    [create_user] is given and false, it then asks [UserFactory.create]
    once for the user ['testuser'], saves the user that call answered
    with nothing changed but the two flags, now active and staff, and
    keeps it as [self.user]; every other attribute of the test case is
    as before, and the test case is ready for [create_sample_course].
    With [create_user] false there are no further calls and only
    [self.store] is set. *)
Theorem setUp_prepares_test_case
    {W : Type} (handle : forall c : call, W -> resp c * W) self kwargs w :
  let o := Effect.run handle (setUp self kwargs) w in
  exists (store : nat),
    if truthy (default (PyBool true) (kwargs !! "create_user")) then
      exists created : user,
        calls o = [existT SuperSetUp tt;
                   existT Modulestore store;
                   existT (UserFactoryCreate "testuser" "test+courses@edx.org" "foo")
                          created;
                   existT (UserSave (User (user_id created) (username created)
                                          (email created) (password created)
                                          true true)) tt] /\
        returned o = Ok (<["user" := AUser (user_id created)]>
                           (<["store" := AStore store]> self), "foo") /\
        ready store (user_id created)
              (<["user" := AUser (user_id created)]> (<["store" := AStore store]> self))
    else
      calls o = [existT SuperSetUp tt; existT Modulestore store] /\
      returned o = Ok (<["store" := AStore store]> self, "foo").
Proof.
  cbv zeta. unfold setUp, Effect.run. cbn [Effect.perform bind run_from].
  destruct (handle SuperSetUp w) as [[] w1]. cbn [run_from].
  destruct (handle Modulestore w1) as [store w2].
  exists store.
  destruct (truthy _); cbn [Effect.perform bind run_from].
  - destruct (handle (UserFactoryCreate _ _ _) w2) as [created w3]. cbn [run_from].
    destruct (handle (UserSave _) w3) as [[] w4]. cbn.
    exists created. split; [done|]. split; [done|].
    split; [by rewrite lookup_insert_ne, lookup_insert_eq|by rewrite lookup_insert_eq].
  - cbn. done.
Qed.

(** X16.  [create_non_staff_user] asks [UserFactory.create] once for
    the user ['teststudent'], saves the user that call answered with
    nothing changed but the two flags, now active and not staff, and
    returns that same user together with the password ['foo']. *)
Theorem create_non_staff_user_is_not_staff
    {W : Type} (handle : forall c : call, W -> resp c * W) w :
  let o := Effect.run handle create_non_staff_user w in
  exists created : user,
    let saved := User (user_id created) (username created) (email created)
                      (password created) true false in
    calls o = [existT (UserFactoryCreate "teststudent" "test+student@edx.org" "foo")
                      created;
               existT (UserSave saved) tt] /\
    returned o = Ok (saved, "foo").
Proof.
  cbv zeta. unfold create_non_staff_user, Effect.run. cbn [Effect.perform bind run_from].
  destruct (handle (UserFactoryCreate _ _ _) w) as [created w1]. cbn [run_from].
  destruct (handle (UserSave _) w1) as [[] w2]. cbn.
  by exists created.
Qed.




End TestUsersFacts.
